(** * search_index.py: the three similarity-search backends

    A shallow embedding of [stock_pattern_analyzer/search_index.py]:
    the classes [FastIndex], [MemoryEfficientIndex] and [cKDTreeIndex],
    each a thin wrapper around an object of an external library
    (faiss, scipy) kept in the attribute [self.index].

    The wrappers are translated statement by statement.  The library calls
    they make are modelled from the libraries' documentation; what the
    documentation leaves open (how rows at equal distance are ranked, what the
    product quantizer learns and finds) is a parameter, see [Library].

    Numbers are idealised: coordinates are integers and arithmetic is exact.
    The libraries compute in floating point (faiss in float32, scipy in
    float64); their numbers are those of the model where no operation rounds,
    see [exact_floats]. *)

From Stdlib Require Import ZArith Lia.
From stdpp Require Import base option list gmap strings pretty sorting.

Local Open Scope string_scope.
Local Open Scope list_scope.
Local Open Scope nat_scope.

(** ** Arrays and distances *)

Definition vec := list Z.

(** A two-dimensional array [n_rows, n_features].  numpy keeps the shape
    apart from the data, so that an array without rows still has a width. *)
Record ndarray := mk_ndarray { n_features : nat; rows : list vec }.

Definition n_rows (X : ndarray) : nat := length (rows X).

(** The query argument [q]: a single vector, shape (D,), or a batch of
    vectors, shape (Q, D). *)
Inductive query_array :=
  | Vec1 (v : vec)
  | Batch (b : ndarray).

(** What a library hands back: a scalar, a 1-D or a 2-D array. *)
Inductive arr (A : Type) :=
  | Scalar (a : A)
  | Arr1 (l : list A)
  | Arr2 (ll : list (list A)).
Arguments Scalar {A} a.
Arguments Arr1 {A} l.
Arguments Arr2 {A} ll.

Definition ravel {A} (a : arr A) : list A :=
  match a with
  | Scalar x => [x]
  | Arr1 l => l
  | Arr2 ll => concat ll
  end.

(** A distance as a library reports it: the number [z], the square root of
    [z] where it is irrational (a library reports the float nearest to it),
    or infinity. *)
Inductive dist :=
  | Num (z : Z)
  | Surd (z : Z)
  | Inf.

#[global] Instance dist_eq_dec : EqDecision dist.
Proof. solve_decision. Defined.

(** The largest finite float32, with which faiss fills the distances of the
    results it could not find. *)
Definition FLT_MAX : Z := 340282346638528859811704183484516925440.

(** Squared Euclidean distance, the metric of [faiss.IndexFlatL2], in exact
    arithmetic. *)
Fixpoint sqdist (x y : vec) : Z :=
  match x, y with
  | a :: x', b :: y' => (a - b) * (a - b) + sqdist x' y'
  | _, _ => 0
  end.

(** Euclidean distance (Minkowski, p = 2), the metric of [cKDTree.query]:
    the square root of the squared distance [s]. *)
Definition euclid (s : Z) : dist :=
  if (Z.sqrt s * Z.sqrt s =? s)%Z then Num (Z.sqrt s) else Surd s.

(** Where the numbers of the model are the numbers of the libraries: the
    coordinates of the [d]-dimensional rows [xb] and of the query [q] are
    integers within a bound [B] so small that every squared distance, at most
    [d * (2B)^2], and every sum, difference and product on the way to it, is
    an integer below [2^24].  float32 and float64 hold these without
    rounding.  Outside, faiss and scipy round, and a float32 distance can
    overflow. *)
Definition exact_floats (d : nat) (xb : list vec) (q : vec) : Prop :=
  ∃ B : Z,
    Forall (Forall (fun c => (Z.abs c ≤ B)%Z)) (q :: xb) ∧
    (Z.of_nat d * ((2 * B) * (2 * B)) < 2 ^ 24)%Z.

(** ** Exceptions and the monad of methods *)

Inductive exn :=
  | ValueError (msg : string)
  | AttributeError (msg : string)
  | AssertionError
  | IndexError
  | TypeError
  | RuntimeError
  | FileNotFoundError
  | UnpicklingError.

#[global] Instance exn_eq_dec : EqDecision exn.
Proof. solve_decision. Defined.

(** [inl e]: the call raised [e]; [inr a]: it returned [a]. *)
Definition result (A : Type) : Type := exn + A.

(** A computation over a state [S].  The state is returned on both paths:
    what a method assigned before it raised stays assigned. *)
Definition M (S A : Type) : Type := S -> result A * S.

Definition ret {S A} (a : A) : M S A := fun s => (inr a, s).
Definition raise {S A} (e : exn) : M S A := fun s => (inl e, s).
Definition bind {S A B} (c : M S A) (f : A -> M S B) : M S B :=
  fun s => match c s with
           | (inl e, s') => (inl e, s')
           | (inr a, s') => f a s'
           end.
Definition get {S} : M S S := fun s => (inr s, s).
Definition modify {S} (f : S -> S) : M S unit := fun s => (inr tt, f s).
Definition lift {S A} (r : result A) : M S A := fun s => (r, s).

#[global] Instance M_ret {S} : MRet (M S) := fun A => @ret S A.
#[global] Instance M_bind {S} : MBind (M S) := fun A B f c => bind c f.

(** [a[0]] on a 2-D array. *)
Definition subscript0 {A} (a : list (list A)) : result (list A) :=
  match a with
  | r :: _ => inr r
  | [] => inl IndexError
  end.

(** ** The external libraries

    What the documentation of faiss and scipy does not determine is taken as
    a parameter. *)
Class Library := {
  (** the trained state of a product quantizer *)
  codebook : Type;
  (** [IndexFlatL2.search]: the stored rows, by position, in the order in
      which the library ranks them for the query, asked for [k] results *)
  flat_rank : list vec -> vec -> positive -> list nat;
  (** [cKDTree.query]: the same for the k-d tree *)
  tree_rank : list vec -> vec -> positive -> list nat;
  (** [IndexIVFPQ.train] with parameters d, nlist, m, nbits on the training
      rows; [None] when faiss rejects the training set *)
  ivfpq_train : nat -> nat -> nat -> nat -> list vec -> option codebook;
  (** [IndexIVFPQ.search]: the approximate neighbours found for one query,
      with their approximate distances *)
  ivfpq_hits : codebook -> list vec -> vec -> positive -> list (dist * Z)
}.

(** The documented contract of an exact k-nearest-neighbour search: every
    stored row is ranked once, by ascending distance to the query.  The order
    of rows at equal distance is left to the library. *)
Definition knn_ranking (xb : list vec) (q : vec) (r : list nat) : Prop :=
  r ≡ₚ seq 0 (length xb) ∧
  Sorted Z.le ((fun i => sqdist q (nth i xb [])) <$> r).

Section Libraries.
Context `{L : Library}.

(** *** faiss *)

Record IndexFlatL2 := mk_flat { flat_d : nat; flat_xb : list vec }.

(** The parameters of the index, what it has learned and the rows it holds.
    The flat index that the constructor is given as coarse quantizer is not a
    field: the index trains it with the rest, and the centroids it then holds
    are part of the [codebook]. *)
Record IndexIVFPQ := mk_ivfpq {
  pq_d : nat;
  pq_nlist : nat;
  pq_m : nat;
  pq_nbits : nat;
  pq_trained : option codebook;
  pq_xb : list vec
}.

Inductive faiss_index :=
  | Flat (i : IndexFlatL2)
  | IVFPQ (i : IndexIVFPQ).

Definition faiss_d (i : faiss_index) : nat :=
  match i with
  | Flat f => flat_d f
  | IVFPQ p => pq_d p
  end.

(** [faiss.IndexFlatL2(d)]: an empty index of dimension [d]. *)
Definition new_IndexFlatL2 (d : nat) : IndexFlatL2 :=
  {| flat_d := d; flat_xb := [] |}.

(** [faiss.IndexIVFPQ(quantizer, d, nlist, m, nbits)]: the product
    quantizer needs [d] to be a multiple of the number [m] of
    sub-quantizers.  The new index is neither trained nor filled. *)
Definition new_IndexIVFPQ (qz : IndexFlatL2) (d nlist m nbits : nat)
  : result IndexIVFPQ :=
  if bool_decide (0 < m ∧ d mod m = 0) then
    inr {| pq_d := d; pq_nlist := nlist; pq_m := m; pq_nbits := nbits;
           pq_trained := None; pq_xb := [] |}
  else inl RuntimeError.

(** [index.train(X)]: nothing to learn for a flat index.  For the product
    quantizer the library says whether it accepts the training set, and what
    it learns.  An index whose training failed is not trained; what the
    failed training has put into the coarse quantizer is not modelled. *)
Definition faiss_train (i : faiss_index) (X : ndarray) : result faiss_index :=
  if bool_decide (n_features X = faiss_d i) then
    match i with
    | Flat f => inr (Flat f)
    | IVFPQ p =>
        match ivfpq_train (pq_d p) (pq_nlist p) (pq_m p) (pq_nbits p) (rows X) with
        | Some cb =>
            inr (IVFPQ {| pq_d := pq_d p; pq_nlist := pq_nlist p;
                          pq_m := pq_m p; pq_nbits := pq_nbits p;
                          pq_trained := Some cb; pq_xb := pq_xb p |})
        | None => inl RuntimeError
        end
    end
  else inl AssertionError.

(** [index.add(X)]: the rows are appended; an index that needs training
    refuses them before it is trained. *)
Definition faiss_add (i : faiss_index) (X : ndarray) : result faiss_index :=
  if bool_decide (n_features X = faiss_d i) then
    match i with
    | Flat f => inr (Flat {| flat_d := flat_d f; flat_xb := flat_xb f ++ rows X |})
    | IVFPQ p =>
        match pq_trained p with
        | Some cb =>
            inr (IVFPQ {| pq_d := pq_d p; pq_nlist := pq_nlist p;
                          pq_m := pq_m p; pq_nbits := pq_nbits p;
                          pq_trained := Some cb; pq_xb := pq_xb p ++ rows X |})
        | None => inl RuntimeError
        end
    end
  else inl AssertionError.

(** One row of a faiss answer: the [k] best results found, then the
    places of the results that were not found, with label -1. *)
Definition padded {A} (k : positive) (found : list A) (fill : A) : list A :=
  let hits := take (Pos.to_nat k) found in
  hits ++ replicate (Pos.to_nat k - length hits) fill.

(** One row of an answer of [IndexFlatL2]: the squared distances and the
    labels of the rows found.  The distances are those of exact arithmetic;
    faiss reports these numbers where [exact_floats] holds. *)
Definition flat_row (xb : list vec) (q : vec) (k : positive)
  : list dist * list Z :=
  let r := flat_rank xb q k in
  (padded k ((fun i => Num (sqdist q (nth i xb []))) <$> r) (Num FLT_MAX),
   padded k (Z.of_nat <$> r) (-1)%Z).

Definition ivfpq_row (cb : codebook) (xb : list vec) (q : vec) (k : positive)
  : list dist * list Z :=
  let r := ivfpq_hits cb xb q k in
  (padded k (fst <$> r) (Num FLT_MAX), padded k (snd <$> r) (-1)%Z).

(** [index.search(x, k)]: [x] must be two-dimensional ([n, d = x.shape])
    and of the dimension of the index ([assert d == self.d]); the answer is
    a pair of arrays of shape (n, k). *)
Definition faiss_search (i : faiss_index) (x : query_array) (k : positive)
  : result (list (list dist) * list (list Z)) :=
  match x with
  | Vec1 _ => inl (ValueError "not enough values to unpack (expected 2, got 1)")
  | Batch b =>
      if bool_decide (n_features b = faiss_d i) then
        match i with
        | Flat f =>
            let answers := (fun q => flat_row (flat_xb f) q k) <$> rows b in
            inr (fst <$> answers, snd <$> answers)
        | IVFPQ p =>
            match pq_trained p with
            | Some cb =>
                let answers := (fun q => ivfpq_row cb (pq_xb p) q k) <$> rows b in
                inr (fst <$> answers, snd <$> answers)
            | None => inl RuntimeError
            end
        end
      else inl AssertionError
  end.

(** The results that faiss finds for one query vector, best first: each the
    distance and the label of a stored row.  [flat_row] and [ivfpq_row] list
    their distances and their labels apart. *)
Definition faiss_hits (i : faiss_index) (q : vec) (k : positive)
  : list (dist * Z) :=
  match i with
  | Flat f =>
      (fun j => (Num (sqdist q (nth j (flat_xb f) [])), Z.of_nat j))
        <$> flat_rank (flat_xb f) q k
  | IVFPQ p =>
      match pq_trained p with
      | Some cb => ivfpq_hits cb (pq_xb p) q k
      | None => []
      end
  end.

(** The distances of [faiss_hits] are computed by the model for a flat index
    and given by the library for a product quantizer. *)
Definition hits_exact (i : faiss_index) (q : vec) : Prop :=
  match i with
  | Flat f => exact_floats (flat_d f) (flat_xb f) q
  | IVFPQ _ => True
  end.

(** *** scipy *)

(** [cKDTree(data=X)]: [n] points of dimension [m]. *)
Record cKDTree := mk_tree { tree_m : nat; tree_data : list vec }.

Definition new_cKDTree (X : ndarray) : cKDTree :=
  {| tree_m := n_features X; tree_data := rows X |}.

(** One row of an answer of the tree: Euclidean distances; missing
    neighbours have infinite distance and index [n]. *)
Definition tree_row (data : list vec) (q : vec) (k : positive)
  : list dist * list Z :=
  let r := tree_rank data q k in
  (padded k ((fun i => euclid (sqdist q (nth i data []))) <$> r) Inf,
   padded k (Z.of_nat <$> r) (Z.of_nat (length data))).

(** The last axis of an answer is squeezed when [k = 1]. *)
Definition squeeze {A} (row : list A) : arr A :=
  match row with
  | [a] => Scalar a
  | _ => Arr1 row
  end.

Definition squeeze_rows {A} (k : positive) (rs : list (list A)) : arr A :=
  if bool_decide (k = 1%positive) then Arr1 (concat rs) else Arr2 rs.

(** [np.shape(x)], printed as Python prints a tuple. *)
Definition shape_repr (x : query_array) : string :=
  match x with
  | Vec1 v => "(" +:+ pretty (length v) +:+ ",)"
  | Batch b => "(" +:+ pretty (length (rows b)) +:+ ", "
                 +:+ pretty (n_features b) +:+ ")"
  end.

Definition wrong_length (m : nat) (x : query_array) : string :=
  "x must consist of vectors of length " +:+ pretty m
    +:+ " but has shape " +:+ shape_repr x.

(** [tree.query(x, k)]: [x] of shape (m,) gives answers of shape (k,),
    [x] of shape (Q, m) answers of shape (Q, k). *)
Definition cKDTree_query (t : cKDTree) (x : query_array) (k : positive)
  : result (arr dist * arr Z) :=
  match x with
  | Vec1 v =>
      if bool_decide (length v = tree_m t) then
        let a := tree_row (tree_data t) v k in
        inr (squeeze a.1, squeeze a.2)
      else inl (ValueError (wrong_length (tree_m t) x))
  | Batch b =>
      if bool_decide (n_features b = tree_m t) then
        let answers := (fun q => tree_row (tree_data t) q k) <$> rows b in
        inr (squeeze_rows k (fst <$> answers), squeeze_rows k (snd <$> answers))
      else inl (ValueError (wrong_length (tree_m t) x))
  end.

(** *** Files and the outside world *)

(** A file written by [faiss.write_index] or by [pickle.dump].  Both store
    whatever [self.index] holds, [None] included: for [None] faiss writes the
    four bytes "null". *)
Inductive file :=
  | FaissFile (o : option faiss_index)
  | PickleFile (o : option cKDTree).

(** The library calls a method makes, in order. *)
Inductive call :=
  | call_IndexFlatL2 (d : nat)
  | call_IndexIVFPQ (d nlist m nbits : nat)
  | call_train
  | call_add
  | call_search
  | call_read_index (path : string)
  | call_write_index (path : string)
  | call_cKDTree
  | call_cKDTree_query
  | call_pickle_load (path : string)
  | call_pickle_dump (path : string).

Record world := mk_world { files : gmap string file; calls : list call }.

Definition log_call (c : call) (w : world) : world :=
  {| files := files w; calls := calls w ++ [c] |}.

Definition write_file (path : string) (f : file) (w : world) : world :=
  {| files := <[path := f]> (files w); calls := calls w |}.

(** A library call made by a method of an object [T]. *)
Definition called {T} (c : call) : M (T * world) unit :=
  modify (fun s => (s.1, log_call c s.2)).

(** [faiss.read_index(path)]; the file "null" reads as [None]. *)
Definition faiss_read_index (path : string) : M world (option faiss_index) :=
  modify (log_call (call_read_index path));;
  w ← get;
  match files w !! path with
  | Some (FaissFile o) => mret o
  | _ => raise RuntimeError
  end.

(** [faiss.write_index(index, path)].  Writing is taken to succeed: the
    failure on a path that cannot be opened for writing is not modelled. *)
Definition faiss_write_index {T} (index : option faiss_index) (path : string)
  : M (T * world) unit :=
  called (call_write_index path);;
  modify (fun s => (s.1, write_file path (FaissFile index) s.2)).

(** [with open(path, "rb") as f: pickle.load(f)] *)
Definition pickle_load (path : string) : M world (option cKDTree) :=
  w ← get;
  match files w !! path with
  | None => raise FileNotFoundError
  | Some f =>
      modify (log_call (call_pickle_load path));;
      match f with
      | PickleFile o => mret o
      | FaissFile _ => raise UnpicklingError
      end
  end.

(** [with open(path, "wb") as f: pickle.dump(obj, f)].  Writing is taken to
    succeed, as in [faiss_write_index]. *)
Definition pickle_dump {T} (obj : option cKDTree) (path : string)
  : M (T * world) unit :=
  called (call_pickle_dump path);;
  modify (fun s => (s.1, write_file path (PickleFile obj) s.2)).

End Libraries.

Arguments faiss_search : simpl never.
Arguments cKDTree_query : simpl never.

(** ** The classes

    Each class has the single attribute [self.index], set to [None] by
    [_BaseIndex.__init__].  A method runs on the pair of its object and the
    world; [load] is a class method and runs on the world alone.  It returns
    a Python value: [Some obj] for an instance, [None] for [None]. *)

(** [self.index.<attr>]: looking an attribute up on [None] raises. *)
Definition index_attr {S I} (index : S -> option I) (attr : string) : M S I :=
  s ← get;
  match index s with
  | Some i => mret i
  | None => raise (AttributeError ("'NoneType' object has no attribute '" +:+ attr +:+ "'"))
  end.

(** [value.query(q, k)] on what a [load] returned. *)
Definition method_query {T W A} (query : M (T * W) A) (value : option T) : M W A :=
  fun w =>
    match value with
    | Some obj => let '(r, s) := query (obj, w) in (r, s.2)
    | None => (inl (AttributeError "'NoneType' object has no attribute 'query'"), w)
    end.

Module FastIndex.
Section FastIndex.
Context `{L : Library}.

Record t := mk { index : option faiss_index }.

Definition __init__ : t := {| index := None |}.

Definition set_index (i : faiss_index) : M (t * world) unit :=
  modify (fun s => ({| index := Some i |}, s.2)).

Definition create (X : ndarray) : M (t * world) unit :=
  called (call_IndexFlatL2 (n_features X));;
  set_index (Flat (new_IndexFlatL2 (n_features X)));;
  i ← index_attr (fun s => index s.1) "add";
  called call_add;;
  i' ← lift (faiss_add i X);
  set_index i'.

Definition query (q : query_array) (k : positive)
  : M (t * world) (arr dist * arr Z) :=
  i ← index_attr (fun s => index s.1) "search";
  called call_search;;
  '(distances, indices) ← lift (faiss_search i q k);
  d0 ← lift (subscript0 distances);
  i0 ← lift (subscript0 indices);
  mret (Arr1 d0, Arr1 i0).

(** The index that was read is dropped and the method ends without a
    [return]: the caller gets [None]. *)
Definition load (file_path : string) : M world (option t) :=
  faiss_read_index file_path;;
  mret None.

Definition serialize (file_path : string) : M (t * world) unit :=
  s ← get;
  faiss_write_index (index s.1) file_path.

End FastIndex.
End FastIndex.

Module MemoryEfficientIndex.
Section MemoryEfficientIndex.
Context `{L : Library}.

Record t := mk { index : option faiss_index }.

Definition __init__ : t := {| index := None |}.

Definition set_index (i : faiss_index) : M (t * world) unit :=
  modify (fun s => ({| index := Some i |}, s.2)).

Definition create (X : ndarray) : M (t * world) unit :=
  let d := n_features X in
  m ← (if bool_decide (d mod 4 = 0) then mret 4
       else if bool_decide (d mod 5 = 0) then mret 5
       else if bool_decide (d mod 2 = 0) then mret 2
       else raise (ValueError "This is not handled, can not find a good value for m"));
  called (call_IndexFlatL2 d);;
  let quantizer := new_IndexFlatL2 d in
  called (call_IndexIVFPQ d 100 m 8);;
  p ← lift (new_IndexIVFPQ quantizer d 100 m 8);
  set_index (IVFPQ p);;
  i ← index_attr (fun s => index s.1) "train";
  called call_train;;
  i' ← lift (faiss_train i X);
  set_index i';;
  i ← index_attr (fun s => index s.1) "add";
  called call_add;;
  i' ← lift (faiss_add i X);
  set_index i'.

Definition query (q : query_array) (k : positive)
  : M (t * world) (arr dist * arr Z) :=
  i ← index_attr (fun s => index s.1) "search";
  called call_search;;
  '(distances, indices) ← lift (faiss_search i q k);
  d0 ← lift (subscript0 distances);
  i0 ← lift (subscript0 indices);
  mret (Arr1 d0, Arr1 i0).

Definition load (file_path : string) : M world (option t) :=
  let obj := __init__ in
  i ← faiss_read_index file_path;
  let obj := {| index := i |} in
  mret (Some obj).

Definition serialize (file_path : string) : M (t * world) unit :=
  s ← get;
  faiss_write_index (index s.1) file_path.

End MemoryEfficientIndex.
End MemoryEfficientIndex.

Module cKDTreeIndex.
Section cKDTreeIndex.
Context `{L : Library}.

Record t := mk { index : option cKDTree }.

Definition __init__ : t := {| index := None |}.

Definition create (X : ndarray) : M (t * world) unit :=
  called call_cKDTree;;
  modify (fun s => ({| index := Some (new_cKDTree X) |}, s.2)).

Definition query (q : query_array) (k : positive)
  : M (t * world) (arr dist * arr Z) :=
  i ← index_attr (fun s => index s.1) "query";
  called call_cKDTree_query;;
  '(top_k_distances, top_k_indices) ← lift (cKDTree_query i q k);
  mret (top_k_distances, top_k_indices).

Definition load (file_path : string) : M world (option t) :=
  let obj := __init__ in
  o ← pickle_load file_path;
  let obj := {| index := o |} in
  mret (Some obj).

Definition serialize (file_path : string) : M (t * world) unit :=
  s ← get;
  pickle_dump (index s.1) file_path.

End cKDTreeIndex.
End cKDTreeIndex.

(** ** Two libraries that meet the contract

    Both rank by exhaustive comparison of all rows.  They differ on rows at
    equal distance: the first ranks the lower row first, the second the
    higher one. *)

Definition closer (xb : list vec) (q : vec) (i j : nat) : Prop :=
  (sqdist q (nth i xb []) ≤ sqdist q (nth j xb []))%Z.

#[global] Instance closer_dec xb q i j : Decision (closer xb q i j).
Proof. unfold closer. apply _. Defined.

Definition lower_first (xb : list vec) (q : vec) (k : positive) : list nat :=
  merge_sort (closer xb q) (seq 0 (length xb)).

Definition higher_first (xb : list vec) (q : vec) (k : positive) : list nat :=
  reverse (merge_sort (flip (closer xb q)) (seq 0 (length xb))).

Definition exact_hits (xb : list vec) (q : vec) (k : positive) : list (dist * Z) :=
  (fun i => (Num (sqdist q (nth i xb [])), Z.of_nat i)) <$> lower_first xb q k.

(** A quantizer with [2 ^ nbits] centroids cannot be trained on fewer rows. *)
Definition enough_rows (d nlist m nbits : nat) (xs : list vec) : option unit :=
  if bool_decide (2 ^ nbits ≤ length xs) then Some tt else None.

Definition reference : Library :=
  {| codebook := unit;
     flat_rank := lower_first;
     tree_rank := lower_first;
     ivfpq_train := enough_rows;
     ivfpq_hits := fun _ => exact_hits |}.

Definition reference' : Library :=
  {| codebook := unit;
     flat_rank := higher_first;
     tree_rank := higher_first;
     ivfpq_train := enough_rows;
     ivfpq_hits := fun _ => exact_hits |}.

(** The data of the examples. *)
Definition six_points : ndarray :=
  {| n_features := 2;
     rows := [[0; 0]; [1; 0]; [0; 1]; [10; 10]; [11; 10]; [10; 11]]%Z |}.

Definition two_points : ndarray :=
  {| n_features := 2; rows := [[0; 0]; [3; 4]]%Z |}.

Definition one_point : ndarray :=
  {| n_features := 2; rows := [[0; 0]]%Z |}.

Definition no_files `{L : Library} : world := {| files := ∅; calls := [] |}.

(** The query (0,0), as a batch of one vector. *)
Definition origin : query_array := Batch (mk_ndarray 2 [[0; 0]%Z]).

(** What a method leaves in [self.index] of a [MemoryEfficientIndex]: the
    number of sub-quantizers of the product quantizer, if there is one. *)
Definition sub_quantizers `{L : Library}
    (s : MemoryEfficientIndex.t * world) : option nat :=
  match MemoryEfficientIndex.index s.1 with
  | Some (IVFPQ p) => Some (pq_m p)
  | _ => None
  end.

(** [Backend.load(path).query(q, k)] *)
Definition FastIndex_restore_query `{L : Library}
    (path : string) (q : query_array) (k : positive)
  : M world (arr dist * arr Z) :=
  v ← FastIndex.load path; method_query (FastIndex.query q k) v.

Definition MemoryEfficientIndex_restore_query `{L : Library}
    (path : string) (q : query_array) (k : positive)
  : M world (arr dist * arr Z) :=
  v ← MemoryEfficientIndex.load path;
  method_query (MemoryEfficientIndex.query q k) v.

Definition cKDTreeIndex_restore_query `{L : Library}
    (path : string) (q : query_array) (k : positive)
  : M world (arr dist * arr Z) :=
  v ← cKDTreeIndex.load path; method_query (cKDTreeIndex.query q k) v.

(** The error with which [MemoryEfficientIndex.create] gives up. *)
Definition no_good_m : exn :=
  ValueError "This is not handled, can not find a good value for m".

(** The part of [MemoryEfficientIndex.create] after [m] has been chosen. *)
Definition create_with `{L : Library} (X : ndarray) (m : nat)
  : M (MemoryEfficientIndex.t * world) unit :=
  let d := n_features X in
  called (call_IndexFlatL2 d);;
  called (call_IndexIVFPQ d 100 m 8);;
  p ← lift (new_IndexIVFPQ (new_IndexFlatL2 d) d 100 m 8);
  MemoryEfficientIndex.set_index (IVFPQ p);;
  i ← index_attr (fun s => MemoryEfficientIndex.index s.1) "train";
  called call_train;;
  i' ← lift (faiss_train i X);
  MemoryEfficientIndex.set_index i';;
  i ← index_attr (fun s => MemoryEfficientIndex.index s.1) "add";
  called call_add;;
  i' ← lift (faiss_add i X);
  MemoryEfficientIndex.set_index i'.

Definition is_ValueError (e : exn) : Prop :=
  match e with ValueError _ => True | _ => False end.

(** [m] is the value that the if/elif chain of
    [MemoryEfficientIndex.create] assigns for the dimension [d]: the first of
    4, 5, 2 that divides [d]. *)
Definition picks (d m : nat) : Prop :=
  (m = 4 ∧ d mod 4 = 0) ∨
  (m = 5 ∧ d mod 4 ≠ 0 ∧ d mod 5 = 0) ∨
  (m = 2 ∧ d mod 4 ≠ 0 ∧ d mod 5 ≠ 0 ∧ d mod 2 = 0).

(** * Properties *)

Ltac run :=
  repeat (unfold mbind, M_bind, bind, mret, M_ret, ret, raise, lift, get,
            modify, called, index_attr, method_query; simpl).

(** ** The errors of the library calls *)

Lemma new_IndexIVFPQ_error `{L : Library} qz d nlist m nbits e :
  new_IndexIVFPQ qz d nlist m nbits = inl e → e = RuntimeError.
Proof. unfold new_IndexIVFPQ. case_bool_decide; congruence. Qed.

Lemma new_IndexIVFPQ_divides `{L : Library} qz d nlist m nbits :
  0 < m → d mod m = 0 →
  new_IndexIVFPQ qz d nlist m nbits =
    inr (mk_ivfpq d nlist m nbits None []).
Proof.
  intros Hm Hd. unfold new_IndexIVFPQ.
  rewrite bool_decide_eq_true_2; [reflexivity | split; assumption].
Qed.

Lemma faiss_train_error `{L : Library} i X e :
  faiss_train i X = inl e → ¬ is_ValueError e.
Proof.
  unfold faiss_train. case_bool_decide; [|intros [= <-]; exact id].
  destruct i as [f|p]; [discriminate|].
  destruct (ivfpq_train _ _ _ _ _); [discriminate|]. intros [= <-]. exact id.
Qed.

Lemma faiss_add_error `{L : Library} i X e :
  faiss_add i X = inl e → ¬ is_ValueError e.
Proof.
  unfold faiss_add. case_bool_decide; [|intros [= <-]; exact id].
  destruct i as [f|p]; [discriminate|].
  destruct (pq_trained p); [discriminate|]. intros [= <-]. exact id.
Qed.

Lemma faiss_train_sub_quantizers `{L : Library} p X i :
  faiss_train (IVFPQ p) X = inr i →
  ∃ p', i = IVFPQ p' ∧ pq_m p' = pq_m p ∧ is_Some (pq_trained p').
Proof.
  unfold faiss_train. case_bool_decide; [|discriminate].
  destruct (ivfpq_train _ _ _ _ _); [|discriminate].
  intros [= <-]. eexists. split; [reflexivity|]. simpl. eauto.
Qed.

Lemma faiss_add_sub_quantizers `{L : Library} p X i :
  faiss_add (IVFPQ p) X = inr i →
  ∃ p', i = IVFPQ p' ∧ pq_m p' = pq_m p ∧ is_Some (pq_trained p').
Proof.
  unfold faiss_add. case_bool_decide; [|discriminate].
  destruct (pq_trained p); [|discriminate].
  intros [= <-]. eexists. split; [reflexivity|]. simpl. eauto.
Qed.

(** ** [MemoryEfficientIndex.create] *)

Lemma create_unfold `{L : Library} X s :
  MemoryEfficientIndex.create X s =
    let d := n_features X in
    if bool_decide (d mod 4 = 0) then create_with X 4 s
    else if bool_decide (d mod 5 = 0) then create_with X 5 s
    else if bool_decide (d mod 2 = 0) then create_with X 2 s
    else (inl no_good_m, s).
Proof.
  unfold MemoryEfficientIndex.create, create_with. simpl.
  repeat case_bool_decide; reflexivity.
Qed.

Lemma create_with_outcome `{L : Library} X m s :
  0 < m → n_features X mod m = 0 →
  (∀ e, (create_with X m s).1 = inl e → ¬ is_ValueError e) ∧
  sub_quantizers (create_with X m s).2 = Some m.
Proof.
  intros Hm Hd. unfold create_with. run.
  rewrite (new_IndexIVFPQ_divides _ _ _ _ _ Hm Hd). run.
  destruct (faiss_train _ X) as [e|i] eqn:Ht; run.
  { split; [|reflexivity]. intros e' [= <-]. by eapply faiss_train_error. }
  apply faiss_train_sub_quantizers in Ht as (p' & -> & Hm' & _).
  destruct (faiss_add _ X) as [e|i] eqn:Ha; run.
  { split; [|unfold sub_quantizers; simpl in *; congruence].
    intros e' [= <-]. by eapply faiss_add_error. }
  apply faiss_add_sub_quantizers in Ha as (p'' & -> & Hm'' & _).
  split; [discriminate|]. unfold sub_quantizers. simpl in *. congruence.
Qed.

Lemma create_with_other_error `{L : Library} X m s :
  0 < m → n_features X mod m = 0 → (create_with X m s).1 ≠ inl no_good_m.
Proof.
  intros Hm Hd He.
  destruct (create_with_outcome X m s Hm Hd) as [Herr _].
  apply (Herr _ He). exact I.
Qed.

(** C4.  Building the quantized index fails with the error of the missing
    subdivision factor, the [ValueError] that [create] raises itself, exactly
    when the dimension D is divisible by none of 4, 5 and 2: it fails for every
    such D, and for every D divisible by one of them it does not raise this
    error, whatever else the library does. *)
Theorem create_raises_iff_no_candidate_divides `{L : Library}
    (X : ndarray) (self : MemoryEfficientIndex.t) (w : world) :
  (MemoryEfficientIndex.create X (self, w)).1 = inl no_good_m ↔
  n_features X mod 4 ≠ 0 ∧ n_features X mod 5 ≠ 0 ∧ n_features X mod 2 ≠ 0.
Proof.
  rewrite create_unfold. cbv zeta.
  repeat case_bool_decide; [| | |tauto].
  all: split; [intros He | tauto].
  all: exfalso; revert He; apply create_with_other_error; (lia || assumption).
Qed.

(** C5.  When the dimension is divisible by none of 4, 5 and 2, [create]
    raises before it calls the library at all: the object and the world,
    with its record of library calls, are what they were.  An object that had
    no index still has none, and a query on it fails. *)
Theorem failed_create_changes_nothing `{L : Library}
    (X : ndarray) (self : MemoryEfficientIndex.t) (w : world) :
  n_features X mod 4 ≠ 0 → n_features X mod 5 ≠ 0 → n_features X mod 2 ≠ 0 →
  MemoryEfficientIndex.create X (self, w) = (inl no_good_m, (self, w)) ∧
  (MemoryEfficientIndex.index self = None →
   ∀ q k, ∃ msg,
     (MemoryEfficientIndex.query q k
        (MemoryEfficientIndex.create X (self, w)).2).1
     = inl (AttributeError msg)).
Proof.
  intros H4 H5 H2. rewrite create_unfold. cbv zeta.
  rewrite !bool_decide_eq_false_2 by assumption.
  split; [reflexivity|].
  intros Hnone q k. destruct self as [i]. simpl in Hnone. subst i.
  eexists. reflexivity.
Qed.

(** C10.  The subdivision factor is the first of 4, 5, 2 that divides the
    dimension: after [create], the product quantizer held by the object has
    4 sub-quantizers when 4 divides D, 5 when 4 does not and 5 does, 2 when
    neither does and 2 does.  So D = 20 gets 4, not 5. *)
Theorem create_prefers_4_then_5_then_2 `{L : Library}
    (X : ndarray) (self : MemoryEfficientIndex.t) (w : world) :
  let d := n_features X in
  let after := (MemoryEfficientIndex.create X (self, w)).2 in
  (d mod 4 = 0 → sub_quantizers after = Some 4) ∧
  (d mod 4 ≠ 0 → d mod 5 = 0 → sub_quantizers after = Some 5) ∧
  (d mod 4 ≠ 0 → d mod 5 ≠ 0 → d mod 2 = 0 → sub_quantizers after = Some 2).
Proof.
  cbv zeta. rewrite create_unfold. cbv zeta.
  repeat split; intros; repeat case_bool_decide; try contradiction;
    apply create_with_outcome; (lia || assumption).
Qed.

Lemma failed_create_changes_nothing_witness :
  7 mod 4 ≠ 0 ∧ 7 mod 5 ≠ 0 ∧ 7 mod 2 ≠ 0 ∧
  @MemoryEfficientIndex.create reference (mk_ndarray 7 [[1; 2; 3; 4; 5; 6; 7]%Z])
    (MemoryEfficientIndex.__init__, no_files)
  = (inl no_good_m, (MemoryEfficientIndex.__init__, no_files)).
Proof.
  assert (H4 : 7 mod 4 ≠ 0) by (vm_compute; lia).
  assert (H5 : 7 mod 5 ≠ 0) by (vm_compute; lia).
  assert (H2 : 7 mod 2 ≠ 0) by (vm_compute; lia).
  split; [exact H4 | split; [exact H5 | split; [exact H2 |]]].
  exact (proj1 (@failed_create_changes_nothing reference
                  (mk_ndarray 7 [[1; 2; 3; 4; 5; 6; 7]%Z])
                  MemoryEfficientIndex.__init__ no_files H4 H5 H2)).
Defined.

Lemma create_prefers_4_then_5_then_2_witness :
  20 mod 4 = 0 ∧
  sub_quantizers
    (@MemoryEfficientIndex.create reference (mk_ndarray 20 [])
       (MemoryEfficientIndex.__init__, no_files)).2 = Some 4.
Proof.
  split; [reflexivity|].
  apply (proj1 (@create_prefers_4_then_5_then_2 reference (mk_ndarray 20 [])
                  MemoryEfficientIndex.__init__ no_files)).
  reflexivity.
Defined.

(** The examples of the specification: D = 7 is refused, D = 6 is not. *)
Example create_D7 `{L : Library} rs self w :
  (MemoryEfficientIndex.create (mk_ndarray 7 rs) (self, w)).1 = inl no_good_m.
Proof. reflexivity. Qed.

Example create_D6 `{L : Library} rs self w :
  (MemoryEfficientIndex.create (mk_ndarray 6 rs) (self, w)).1 ≠ inl no_good_m
  ∧ sub_quantizers (MemoryEfficientIndex.create (mk_ndarray 6 rs) (self, w)).2
    = Some 2.
Proof.
  rewrite create_unfold.
  change (let d := n_features (mk_ndarray 6 rs) in
          if bool_decide (d mod 4 = 0) then create_with (mk_ndarray 6 rs) 4 (self, w)
          else if bool_decide (d mod 5 = 0) then create_with (mk_ndarray 6 rs) 5 (self, w)
          else if bool_decide (d mod 2 = 0) then create_with (mk_ndarray 6 rs) 2 (self, w)
          else (inl no_good_m, (self, w)))
    with (create_with (mk_ndarray 6 rs) 2 (self, w)).
  split.
  - apply create_with_other_error; [lia | reflexivity].
  - apply create_with_outcome; [lia | reflexivity].
Qed.

(** ** Querying an object that has no index *)

(** C8.  On every backend, [query] on an object on which [create] has not
    been called fails: [self.index] is still [None], and looking up the
    search method on it raises [AttributeError].  Nothing else happens: the
    object and the world are unchanged. *)
Theorem query_before_create_raises `{L : Library}
    (q : query_array) (k : positive) (w : world) :
  FastIndex.query q k (FastIndex.__init__, w)
  = (inl (AttributeError "'NoneType' object has no attribute 'search'"),
     (FastIndex.__init__, w)) ∧
  MemoryEfficientIndex.query q k (MemoryEfficientIndex.__init__, w)
  = (inl (AttributeError "'NoneType' object has no attribute 'search'"),
     (MemoryEfficientIndex.__init__, w)) ∧
  cKDTreeIndex.query q k (cKDTreeIndex.__init__, w)
  = (inl (AttributeError "'NoneType' object has no attribute 'query'"),
     (cKDTreeIndex.__init__, w)).
Proof. repeat split. Qed.

(** ** Saving and restoring *)

Lemma serialize_files `{L : Library} self i path w :
  FastIndex.index self = Some i →
  FastIndex.serialize path (self, w)
  = (inr tt, (self, write_file path (FaissFile (Some i))
                      (log_call (call_write_index path) w))).
Proof. intros Hi. unfold FastIndex.serialize, faiss_write_index. run. by rewrite Hi. Qed.

(** C2, at [FastIndex].  [FastIndex.load] on the file that
    [FastIndex.serialize] wrote from a built index reads the file and returns
    [None], not an instance. *)
Theorem FastIndex_load_returns_None `{L : Library}
    (self : FastIndex.t) (i : faiss_index) (path : string) (w : world) :
  FastIndex.index self = Some i →
  (FastIndex.load path (FastIndex.serialize path (self, w)).2.2).1 = inr None.
Proof.
  intros Hi. rewrite (serialize_files _ _ _ _ Hi).
  unfold FastIndex.load, faiss_read_index. run.
  by rewrite lookup_insert_eq.
Qed.

(** C3, at [FastIndex].  After [serialize] of a built index, [load] and then
    [query] on what [load] returned raises [AttributeError]: there is no
    restored instance to query. *)
Theorem FastIndex_restore_query_raises `{L : Library}
    (self : FastIndex.t) (i : faiss_index) (path : string) (w : world)
    (q : query_array) (k : positive) :
  FastIndex.index self = Some i →
  (FastIndex_restore_query path q k
     (FastIndex.serialize path (self, w)).2.2).1
  = inl (AttributeError "'NoneType' object has no attribute 'query'").
Proof.
  intros Hi. rewrite (serialize_files _ _ _ _ Hi).
  unfold FastIndex_restore_query, FastIndex.load, faiss_read_index. run.
  by rewrite lookup_insert_eq.
Qed.

(** The two other backends restore what they saved: the restored instance
    answers as the saved one. *)
Lemma MemoryEfficientIndex_round_trip `{L : Library}
    (self : MemoryEfficientIndex.t) (i : faiss_index) (path : string)
    (w : world) (q : query_array) (k : positive) :
  MemoryEfficientIndex.index self = Some i →
  let saved := (MemoryEfficientIndex.serialize path (self, w)).2 in
  (MemoryEfficientIndex_restore_query path q k saved.2).1
  = (MemoryEfficientIndex.query q k saved).1.
Proof.
  intros Hi. destruct self as [o]. simpl in Hi. subst o.
  unfold MemoryEfficientIndex_restore_query, MemoryEfficientIndex.load,
    MemoryEfficientIndex.serialize, MemoryEfficientIndex.query,
    faiss_write_index, faiss_read_index.
  run. rewrite lookup_insert_eq. run.
  destruct (faiss_search i q k) as [e|[ds ix]]; run; [reflexivity|].
  destruct (subscript0 ds); run; [reflexivity|].
  destruct (subscript0 ix); reflexivity.
Qed.

Lemma cKDTreeIndex_round_trip `{L : Library}
    (self : cKDTreeIndex.t) (path : string)
    (w : world) (q : query_array) (k : positive) :
  let saved := (cKDTreeIndex.serialize path (self, w)).2 in
  (cKDTreeIndex_restore_query path q k saved.2).1
  = (cKDTreeIndex.query q k saved).1.
Proof.
  destruct self as [o].
  unfold cKDTreeIndex_restore_query, cKDTreeIndex.load,
    cKDTreeIndex.serialize, cKDTreeIndex.query, pickle_dump, pickle_load.
  run. rewrite lookup_insert_eq. run.
  destruct o as [t|]; run; [|reflexivity].
  destruct (cKDTree_query t q k) as [e|[ds ix]]; reflexivity.
Qed.

(** ** Rows of an answer *)

Lemma padded_length {A} (k : positive) (l : list A) (fill : A) :
  length (padded k l fill) = Pos.to_nat k.
Proof.
  unfold padded. rewrite length_app, length_replicate, length_take. lia.
Qed.

Lemma padded_lookup_found {A} (k : positive) (l : list A) (fill : A) (j : nat) :
  j < Pos.to_nat k → j < length l → padded k l fill !! j = l !! j.
Proof.
  intros Hk Hl. unfold padded.
  rewrite lookup_app_l by (rewrite length_take; lia).
  by apply lookup_take_lt.
Qed.

Lemma padded_lookup_fill {A} (k : positive) (l : list A) (fill : A) (j : nat) :
  length l ≤ j → j < Pos.to_nat k → padded k l fill !! j = Some fill.
Proof.
  intros Hl Hk. unfold padded.
  rewrite lookup_app_r by (rewrite length_take; lia).
  apply lookup_replicate_2. rewrite length_take. lia.
Qed.

(** A position that does not hold the filling holds a result. *)
Lemma padded_lookup_inv {A} (k : positive) (l : list A) (fill x : A) (j : nat) :
  padded k l fill !! j = Some x → x ≠ fill →
  j < Pos.to_nat k ∧ l !! j = Some x.
Proof.
  unfold padded. intros Hj Hx.
  apply lookup_app_Some in Hj as [Hj | [_ Hj]].
  - apply lookup_take_Some in Hj as [? ?]. by split.
  - apply lookup_replicate in Hj as [-> _]. contradiction.
Qed.

Lemma ravel_squeeze {A} (row : list A) : ravel (squeeze row) = row.
Proof. by destruct row as [|a [|b row]]. Qed.

(** ** Rankings *)

Lemma knn_ranking_length xb q r : knn_ranking xb q r → length r = length xb.
Proof. intros [Hp _]. by rewrite Hp, length_seq. Qed.

Lemma knn_ranking_bound xb q r j i :
  knn_ranking xb q r → r !! j = Some i → i < length xb.
Proof.
  intros [Hp _] Hj.
  assert (Hi : i ∈ seq 0 (length xb)) by (rewrite <- Hp; by eapply list_elem_of_lookup_2).
  apply elem_of_seq in Hi. lia.
Qed.

(** Two rankings of the same rows list the same distances, position by
    position: the sorted list of the distances of all rows. *)
Lemma knn_ranking_distances xb q r1 r2 :
  knn_ranking xb q r1 → knn_ranking xb q r2 →
  (fun i => sqdist q (nth i xb [])) <$> r1
  = (fun i => sqdist q (nth i xb [])) <$> r2.
Proof.
  intros [Hp1 Hs1] [Hp2 Hs2].
  apply (Sorted_unique Z.le); [assumption..|].
  by rewrite Hp1, Hp2.
Qed.

(** Where no two rows are at the same distance, the ranking is unique. *)
Lemma knn_ranking_unique xb q r1 r2 :
  NoDup (sqdist q <$> xb) →
  knn_ranking xb q r1 → knn_ranking xb q r2 → r1 = r2.
Proof.
  intros Hnd H1 H2.
  pose proof (knn_ranking_distances _ _ _ _ H1 H2) as Hd.
  apply (list_eq_same_length _ _ (length xb));
    [by eapply knn_ranking_length..|].
  intros j a b _ Ha Hb.
  pose proof (knn_ranking_bound _ _ _ _ _ H1 Ha) as Hia.
  pose proof (knn_ranking_bound _ _ _ _ _ H2 Hb) as Hib.
  assert (Hab : sqdist q (nth a xb []) = sqdist q (nth b xb [])).
  { apply (f_equal (fun l => l !! j)) in Hd.
    rewrite !list_lookup_fmap, Ha, Hb in Hd. by injection Hd. }
  destruct (lookup_lt_is_Some_2 xb a Hia) as [va Hva].
  destruct (lookup_lt_is_Some_2 xb b Hib) as [vb Hvb].
  rewrite (nth_lookup_Some _ _ _ _ Hva), (nth_lookup_Some _ _ _ _ Hvb) in Hab.
  eapply (NoDup_lookup _ a b); [exact Hnd | |].
  - rewrite list_lookup_fmap, Hva. reflexivity.
  - rewrite list_lookup_fmap, Hvb. simpl. by rewrite Hab.
Qed.

Lemma sorted_lookup_le (l : list Z) j p a b :
  Sorted Z.le l → j ≤ p → l !! j = Some a → l !! p = Some b → (a ≤ b)%Z.
Proof.
  intros Hs. apply Sorted_StronglySorted in Hs; [|apply _].
  revert j p. induction Hs as [|x l Hs IH Hx]; intros j p Hjp Hj Hp.
  { by rewrite lookup_nil in Hj. }
  destruct j as [|j], p as [|p]; simpl in *; try lia.
  - injection Hj as <-. injection Hp as <-. lia.
  - injection Hj as <-. rewrite Forall_forall in Hx.
    apply Hx. by eapply list_elem_of_lookup_2.
  - eapply IH; [|eassumption..]. lia.
Qed.

(** The rank of a row and its distance, at a position of a ranking. *)
Lemma knn_ranking_lookup xb q r j :
  knn_ranking xb q r → j < length xb →
  ∃ i row, r !! j = Some i ∧ xb !! i = Some row ∧
           nth i xb [] = row.
Proof.
  intros Hr Hj.
  destruct (lookup_lt_is_Some_2 r j) as [i Hi].
  { by rewrite (knn_ranking_length _ _ _ Hr). }
  pose proof (knn_ranking_bound _ _ _ _ _ Hr Hi) as Hlt.
  destruct (lookup_lt_is_Some_2 xb i Hlt) as [row Hrow].
  exists i, row. repeat split; try assumption.
  by apply nth_lookup_Some.
Qed.

(** Two rankings of the same rows hold rows at the same distance at each
    position. *)
Lemma knn_ranking_same_distance xb q r1 r2 j i1 i2 :
  knn_ranking xb q r1 → knn_ranking xb q r2 →
  r1 !! j = Some i1 → r2 !! j = Some i2 →
  sqdist q (nth i1 xb []) = sqdist q (nth i2 xb []).
Proof.
  intros H1 H2 Hi1 Hi2.
  pose proof (knn_ranking_distances _ _ _ _ H1 H2) as Hd.
  apply (f_equal (fun l => l !! j)) in Hd.
  rewrite !list_lookup_fmap, Hi1, Hi2 in Hd. by injection Hd.
Qed.

(** The first [m] positions of a ranking hold every row that is strictly
    closer to the query than a row among the first [m] of another ranking. *)
Lemma knn_ranking_closer xb q r1 r2 m j i i' :
  knn_ranking xb q r1 → knn_ranking xb q r2 →
  r1 !! j = Some i' → j < m → i < length xb →
  (sqdist q (nth i xb []) < sqdist q (nth i' xb []))%Z →
  ∃ p, p < m ∧ r2 !! p = Some i.
Proof.
  intros H1 H2 Hj Hjm Hi Hlt.
  assert (Hin : i ∈ r2).
  { destruct H2 as [Hp _]. rewrite Hp. apply elem_of_seq. lia. }
  apply list_elem_of_lookup in Hin as [p Hp].
  exists p. split; [|exact Hp].
  destruct (decide (p < m)) as [|Hge]; [assumption|]. exfalso.
  destruct (lookup_lt_is_Some_2 r2 j) as [x Hx].
  { apply lookup_lt_Some in Hp. lia. }
  pose proof (knn_ranking_same_distance _ _ _ _ _ _ _ H1 H2 Hj Hx) as Hsame.
  destruct H2 as [_ Hs].
  assert (Hle : (sqdist q (nth x xb []) ≤ sqdist q (nth i xb []))%Z).
  { eapply (sorted_lookup_le _ j p); [exact Hs | lia | |].
    - by rewrite list_lookup_fmap, Hx.
    - by rewrite list_lookup_fmap, Hp. }
  lia.
Qed.

(** ** Built indexes and their answers *)

Lemma FastIndex_create_built `{L : Library} X self w :
  FastIndex.create X (self, w)
  = (inr tt,
     (FastIndex.mk (Some (Flat (mk_flat (n_features X) (rows X)))),
      log_call call_add (log_call (call_IndexFlatL2 (n_features X)) w))).
Proof.
  unfold FastIndex.create, FastIndex.set_index, faiss_add. run.
  by rewrite bool_decide_eq_true_2.
Qed.

Lemma cKDTreeIndex_create_built `{L : Library} X self w :
  cKDTreeIndex.create X (self, w)
  = (inr tt, (cKDTreeIndex.mk (Some (new_cKDTree X)), log_call call_cKDTree w)).
Proof. reflexivity. Qed.

Lemma FastIndex_query_flat `{L : Library} self w d xb q0 rest k :
  FastIndex.index self = Some (Flat (mk_flat d xb)) →
  (FastIndex.query (Batch (mk_ndarray d (q0 :: rest))) k (self, w)).1
  = inr (Arr1 (flat_row xb q0 k).1, Arr1 (flat_row xb q0 k).2).
Proof.
  intros Hi. unfold FastIndex.query, faiss_search. run. rewrite Hi. run.
  by rewrite bool_decide_eq_true_2.
Qed.

Lemma cKDTreeIndex_query_vec `{L : Library} self w t q k :
  cKDTreeIndex.index self = Some t → length q = tree_m t →
  (cKDTreeIndex.query (Vec1 q) k (self, w)).1
  = inr (squeeze (tree_row (tree_data t) q k).1,
         squeeze (tree_row (tree_data t) q k).2).
Proof.
  intros Hi Hq. unfold cKDTreeIndex.query, cKDTree_query. run. rewrite Hi. run.
  by rewrite bool_decide_eq_true_2.
Qed.

(** Every row of an answer of faiss has [k] entries, and there is one row for
    each query vector. *)
Lemma faiss_search_shape `{L : Library} i b k ds ix :
  faiss_search i (Batch b) k = inr (ds, ix) →
  length ds = length (rows b) ∧ length ix = length (rows b) ∧
  Forall (fun r => length r = Pos.to_nat k) ds ∧
  Forall (fun r => length r = Pos.to_nat k) ix.
Proof.
  unfold faiss_search. case_bool_decide; [|discriminate].
  destruct i as [f|p]; [|destruct (pq_trained p) as [cb|]; [|discriminate]].
  all: intros [= <- <-]; rewrite !length_fmap; repeat split; try reflexivity.
  all: rewrite <- !list_fmap_compose; apply Forall_fmap, Forall_true; intros q.
  all: simpl; apply padded_length.
Qed.

(** Of a batch, faiss answers every vector; the wrappers keep the answer to
    the first. *)
Lemma faiss_search_first `{L : Library} i d q0 rest k :
  match faiss_search i (Batch (mk_ndarray d (q0 :: rest))) k,
        faiss_search i (Batch (mk_ndarray d [q0])) k with
  | inr (ds, ix), inr (ds0, ix0) =>
      subscript0 ds = subscript0 ds0 ∧ subscript0 ix = subscript0 ix0 ∧
      length ds = S (length rest) ∧ length ix = S (length rest)
  | inl e, inl e0 => e = e0
  | _, _ => False
  end.
Proof.
  unfold faiss_search. simpl. case_bool_decide; [|reflexivity].
  destruct i as [f|p]; [|destruct (pq_trained p) as [cb|]]; simpl;
    rewrite ?length_fmap; auto.
Qed.

Ltac first_of_batch i d q0 rest k :=
  pose proof (faiss_search_first i d q0 rest k) as Hfirst;
  destruct (faiss_search i (Batch (mk_ndarray d (q0 :: rest))) k)
    as [e|[ds ix]] eqn:Hall;
  destruct (faiss_search i (Batch (mk_ndarray d [q0])) k)
    as [e0|[ds0 ix0]] eqn:Hone;
  try contradiction.

Lemma zip_padded {A B} (k : positive) (h : list (A * B)) (a : A) (b : B) :
  zip (padded k (h.*1) a) (padded k (h.*2) b) = padded k h (a, b).
Proof.
  unfold padded. rewrite <- !fmap_take, !length_fmap.
  rewrite zip_with_app by (by rewrite !length_fmap).
  by rewrite zip_fst_snd, zip_with_replicate.
Qed.

(** A row of an answer of faiss, pair by pair: the results found, then the
    filling. *)
Lemma faiss_search_first_hits `{L : Library} i d q0 rest k ds ix :
  faiss_search i (Batch (mk_ndarray d (q0 :: rest))) k = inr (ds, ix) →
  ∃ d0 i0 dt it,
    ds = d0 :: dt ∧ ix = i0 :: it ∧
    length d0 = Pos.to_nat k ∧ length i0 = Pos.to_nat k ∧
    zip d0 i0 = padded k (faiss_hits i q0 k) (Num FLT_MAX, (-1)%Z).
Proof.
  unfold faiss_search. cbn [n_features rows]. case_bool_decide; [|discriminate].
  destruct i as [f|p]; [|destruct (pq_trained p) as [cb|] eqn:Hcb; [|discriminate]].
  - intros [= <- <-]. do 4 eexists.
    split; [reflexivity|]. split; [reflexivity|].
    rewrite !padded_length.
    split; [reflexivity|]. split; [reflexivity|].
    rewrite <- zip_padded. unfold faiss_hits.
    by rewrite <- !list_fmap_compose.
  - intros [= <- <-]. do 4 eexists.
    split; [reflexivity|]. split; [reflexivity|].
    rewrite !padded_length.
    split; [reflexivity|]. split; [reflexivity|].
    rewrite zip_padded. unfold faiss_hits. by rewrite Hcb.
Qed.

(** C9, as the code has it.  Given a batch of query vectors, [FastIndex.query]
    and [MemoryEfficientIndex.query] answer its first vector only: the call
    behaves as the call on the batch of that vector alone.  What a successful
    call returns is row 0 of the distances and row 0 of the labels that faiss
    computed, as they are, each of k entries.  So position i of one belongs
    to position i of the other: where the numbers of the model are those of
    faiss, the two hold the distance and the label of the i-th result faiss
    found for the first vector, or, past the last result, the two
    fillings. *)
Theorem batch_query_answers_first_vector `{L : Library}
    (d : nat) (q0 : vec) (rest : list vec) (k : positive) (w : world) :
  let batch := Batch (mk_ndarray d (q0 :: rest)) in
  (∀ self,
     FastIndex.query batch k (self, w)
     = FastIndex.query (Batch (mk_ndarray d [q0])) k (self, w)) ∧
  (∀ self a,
     (FastIndex.query batch k (self, w)).1 = inr a →
     ∃ i d0 i0 dt it,
       FastIndex.index self = Some i ∧
       faiss_search i batch k = inr (d0 :: dt, i0 :: it) ∧
       a = (Arr1 d0, Arr1 i0) ∧
       length d0 = Pos.to_nat k ∧ length i0 = Pos.to_nat k ∧
       (hits_exact i q0 →
        zip d0 i0 = padded k (faiss_hits i q0 k) (Num FLT_MAX, (-1)%Z))) ∧
  (∀ self,
     MemoryEfficientIndex.query batch k (self, w)
     = MemoryEfficientIndex.query (Batch (mk_ndarray d [q0])) k (self, w)) ∧
  (∀ self a,
     (MemoryEfficientIndex.query batch k (self, w)).1 = inr a →
     ∃ i d0 i0 dt it,
       MemoryEfficientIndex.index self = Some i ∧
       faiss_search i batch k = inr (d0 :: dt, i0 :: it) ∧
       a = (Arr1 d0, Arr1 i0) ∧
       length d0 = Pos.to_nat k ∧ length i0 = Pos.to_nat k ∧
       (hits_exact i q0 →
        zip d0 i0 = padded k (faiss_hits i q0 k) (Num FLT_MAX, (-1)%Z))).
Proof.
  cbv zeta. split; [|split; [|split]].
  - intros [[i|]]; unfold FastIndex.query; run; [|reflexivity].
    first_of_batch i d q0 rest k; [by subst|].
    destruct Hfirst as (-> & -> & _). reflexivity.
  - intros [[i|]] a; unfold FastIndex.query; run; [|discriminate].
    destruct (faiss_search i _ k) as [e|[ds ix]] eqn:Hall; run; [discriminate|].
    destruct (faiss_search_first_hits _ _ _ _ _ _ _ Hall)
      as (d0 & i0 & dt & it & -> & -> & Hd & Hi & Hzip).
    run. intros [= <-]. exists i, d0, i0, dt, it. by repeat split.
  - intros [[i|]]; unfold MemoryEfficientIndex.query; run; [|reflexivity].
    first_of_batch i d q0 rest k; [by subst|].
    destruct Hfirst as (-> & -> & _). reflexivity.
  - intros [[i|]] a; unfold MemoryEfficientIndex.query; run; [|discriminate].
    destruct (faiss_search i _ k) as [e|[ds ix]] eqn:Hall; run; [discriminate|].
    destruct (faiss_search_first_hits _ _ _ _ _ _ _ Hall)
      as (d0 & i0 & dt & it & -> & -> & Hd & Hi & Hzip).
    run. intros [= <-]. exists i, d0, i0, dt, it. by repeat split.
Qed.

Lemma cKDTreeIndex_query_one `{L : Library} self w t q k x :
  cKDTreeIndex.index self = Some t → length q = tree_m t →
  x = Vec1 q ∨ x = Batch (mk_ndarray (tree_m t) [q]) →
  ∃ a, (cKDTreeIndex.query x k (self, w)).1 = inr a ∧
       ravel a.1 = (tree_row (tree_data t) q k).1 ∧
       ravel a.2 = (tree_row (tree_data t) q k).2.
Proof.
  intros Hi Hq [-> | ->].
  - rewrite (cKDTreeIndex_query_vec _ _ _ _ _ Hi Hq).
    eexists. split; [reflexivity|]. simpl. by rewrite !ravel_squeeze.
  - unfold cKDTreeIndex.query, cKDTree_query. run. rewrite Hi. run.
    rewrite bool_decide_eq_true_2 by reflexivity. run.
    eexists. split; [reflexivity|].
    unfold squeeze_rows. case_bool_decide; simpl; by rewrite !app_nil_r.
Qed.

Lemma create_with_ready `{L : Library} X m s st :
  create_with X m s = (inr tt, st) →
  ∃ p cb, MemoryEfficientIndex.index st.1 = Some (IVFPQ p) ∧
          pq_trained p = Some cb ∧ pq_d p = n_features X.
Proof.
  unfold create_with, new_IndexIVFPQ, faiss_train, faiss_add. run.
  case_bool_decide; run; [|discriminate].
  rewrite bool_decide_eq_true_2 by reflexivity.
  destruct (ivfpq_train _ _ _ _ _) as [cb|]; run; [|discriminate].
  rewrite bool_decide_eq_true_2 by reflexivity. run.
  intros [= <-]. simpl. eauto.
Qed.

Lemma MemoryEfficientIndex_create_ready `{L : Library} X s st :
  MemoryEfficientIndex.create X s = (inr tt, st) →
  ∃ p cb, MemoryEfficientIndex.index st.1 = Some (IVFPQ p) ∧
          pq_trained p = Some cb ∧ pq_d p = n_features X.
Proof.
  rewrite create_unfold. cbv zeta.
  repeat case_bool_decide; try apply create_with_ready. discriminate.
Qed.

Lemma MemoryEfficientIndex_query_ready `{L : Library} self w p cb q0 rest k :
  MemoryEfficientIndex.index self = Some (IVFPQ p) →
  pq_trained p = Some cb →
  (MemoryEfficientIndex.query (Batch (mk_ndarray (pq_d p) (q0 :: rest))) k
     (self, w)).1
  = inr (Arr1 (ivfpq_row cb (pq_xb p) q0 k).1,
         Arr1 (ivfpq_row cb (pq_xb p) q0 k).2).
Proof.
  intros Hi Hcb. unfold MemoryEfficientIndex.query, faiss_search. run.
  rewrite Hi. run. rewrite bool_decide_eq_true_2 by reflexivity.
  by rewrite Hcb.
Qed.

(** ** More results asked for than rows stored *)

(** C7, as the code has it.  With k greater than the number N of rows, no
    backend fails and no backend shortens its answer to N: the answer has k
    positions.  Where the library finds no more results than there are rows,
    the exact backends fill the positions from N on: [FastIndex] reports
    index -1 at the largest float, [cKDTreeIndex] index N at infinite
    distance.  [MemoryEfficientIndex], once built, answers with k positions
    as well. *)
Theorem query_beyond_N_is_padded `{L : Library}
    (X : ndarray) (q : vec) (k : positive) (w : world) :
  length q = n_features X →
  n_rows X < Pos.to_nat k →
  length (flat_rank (rows X) q k) ≤ n_rows X →
  length (tree_rank (rows X) q k) ≤ n_rows X →
  let batch := Batch (mk_ndarray (n_features X) [q]) in
  (∃ dF iF,
     (FastIndex.query batch k
        (FastIndex.create X (FastIndex.__init__, w)).2).1
       = inr (Arr1 dF, Arr1 iF) ∧
     length dF = Pos.to_nat k ∧ length iF = Pos.to_nat k ∧
     ∀ j, n_rows X ≤ j → j < Pos.to_nat k →
          dF !! j = Some (Num FLT_MAX) ∧ iF !! j = Some (-1)%Z) ∧
  (∃ aT,
     (cKDTreeIndex.query batch k
        (cKDTreeIndex.create X (cKDTreeIndex.__init__, w)).2).1 = inr aT ∧
     length (ravel aT.1) = Pos.to_nat k ∧ length (ravel aT.2) = Pos.to_nat k ∧
     ∀ j, n_rows X ≤ j → j < Pos.to_nat k →
          ravel aT.1 !! j = Some Inf ∧
          ravel aT.2 !! j = Some (Z.of_nat (n_rows X))) ∧
  (∀ st,
     MemoryEfficientIndex.create X (MemoryEfficientIndex.__init__, w)
       = (inr tt, st) →
     ∃ dQ iQ,
       (MemoryEfficientIndex.query batch k st).1 = inr (Arr1 dQ, Arr1 iQ) ∧
       length dQ = Pos.to_nat k ∧ length iQ = Pos.to_nat k).
Proof.
  intros Hq Hk HlF HlT batch. unfold n_rows in *.
  split; [|split].
  - rewrite FastIndex_create_built. simpl. unfold batch.
    rewrite (FastIndex_query_flat _ _ (n_features X) (rows X)) by reflexivity.
    do 2 eexists. split; [reflexivity|]. simpl.
    rewrite !padded_length. repeat split.
    all: apply padded_lookup_fill; rewrite ?length_fmap; lia.
  - rewrite cKDTreeIndex_create_built. simpl.
    destruct (cKDTreeIndex_query_one (cKDTreeIndex.mk (Some (new_cKDTree X)))
                (log_call call_cKDTree w) (new_cKDTree X) q k batch)
      as (a & Ha & Hd & Hi); [reflexivity | exact Hq | by right |].
    exists a. split; [exact Ha|]. rewrite Hd, Hi. simpl.
    rewrite !padded_length. repeat split.
    all: apply padded_lookup_fill; rewrite ?length_fmap; lia.
  - intros [self w'] Hst.
    apply MemoryEfficientIndex_create_ready in Hst as (p & cb & Hi & Hcb & Hd).
    unfold batch. rewrite <- Hd.
    rewrite (MemoryEfficientIndex_query_ready _ _ _ _ _ _ _ Hi Hcb).
    do 2 eexists. split; [reflexivity|]. simpl. by rewrite !padded_length.
Qed.

(** ** The two exact backends *)

(** What a row of an answer reports at a position: the row ranked there, with
    its distance. *)
Lemma flat_row_found `{L : Library} xb q k j i :
  flat_rank xb q k !! j = Some i → j < Pos.to_nat k →
  (flat_row xb q k).1 !! j = Some (Num (sqdist q (nth i xb []))) ∧
  (flat_row xb q k).2 !! j = Some (Z.of_nat i).
Proof.
  intros Hi Hk. pose proof (lookup_lt_Some _ _ _ Hi) as Hlt.
  unfold flat_row. cbn [fst snd].
  rewrite !padded_lookup_found by (rewrite ?length_fmap; lia).
  by rewrite !list_lookup_fmap, Hi.
Qed.

Lemma tree_row_found `{L : Library} data q k j i :
  tree_rank data q k !! j = Some i → j < Pos.to_nat k →
  (tree_row data q k).1 !! j = Some (euclid (sqdist q (nth i data []))) ∧
  (tree_row data q k).2 !! j = Some (Z.of_nat i).
Proof.
  intros Hi Hk. pose proof (lookup_lt_Some _ _ _ Hi) as Hlt.
  unfold tree_row. cbn [fst snd].
  rewrite !padded_lookup_found by (rewrite ?length_fmap; lia).
  by rewrite !list_lookup_fmap, Hi.
Qed.

(** An index of a stored row in an answer is not a filling: the row is ranked
    at this position. *)
Lemma flat_row_reports `{L : Library} xb q k j i :
  (flat_row xb q k).2 !! j = Some (Z.of_nat i) →
  j < Pos.to_nat k ∧ flat_rank xb q k !! j = Some i.
Proof.
  unfold flat_row. cbn [snd]. intros Hj.
  apply padded_lookup_inv in Hj as [Hk Hj]; [|lia].
  split; [exact Hk|].
  rewrite list_lookup_fmap in Hj.
  destruct (flat_rank xb q k !! j) as [i'|]; [|discriminate].
  simpl in Hj. f_equal. injection Hj. lia.
Qed.

Lemma tree_row_reports `{L : Library} data q k j i :
  i < length data →
  (tree_row data q k).2 !! j = Some (Z.of_nat i) →
  j < Pos.to_nat k ∧ tree_rank data q k !! j = Some i.
Proof.
  unfold tree_row. cbn [snd]. intros Hi Hj.
  apply padded_lookup_inv in Hj as [Hk Hj]; [|lia].
  split; [exact Hk|].
  rewrite list_lookup_fmap in Hj.
  destruct (tree_rank data q k !! j) as [i'|]; [|discriminate].
  simpl in Hj. f_equal. injection Hj. lia.
Qed.

(** C1, as the code has it.  Built on the same rows and asked the same
    query, [FastIndex] and [cKDTreeIndex] both answer with k positions, and
    not with the same distances: [FastIndex] reports squared Euclidean
    distances, [cKDTreeIndex] Euclidean distances.  Where the arithmetic of
    the libraries is exact ([exact_floats]):

    - for a stored row that both report, at whatever positions, the first
      reports the squared distance s of the row and the second the square
      root of s;

    and, where both libraries rank as the contract of an exact search says
    ([knn_ranking]):

    - at every position below k and N, the first reports a number s and the
      second the square root of s;
    - a stored row that is strictly closer to the query than a row that one
      of the two reports is reported by both, so that the rows of the two
      answers differ at most in rows at the largest distance reported;
    - a stored row whose distance from the query no other stored row shares
      is reported by both at the same position, or by neither. *)
Theorem flat_distances_are_tree_distances_squared `{L : Library}
    (X : ndarray) (q : vec) (k : positive) (w : world) :
  length q = n_features X →
  exact_floats (n_features X) (rows X) q →
  let batch := Batch (mk_ndarray (n_features X) [q]) in
  ∃ dF iF aT,
    (FastIndex.query batch k
       (FastIndex.create X (FastIndex.__init__, w)).2).1
      = inr (Arr1 dF, Arr1 iF) ∧
    (cKDTreeIndex.query batch k
       (cKDTreeIndex.create X (cKDTreeIndex.__init__, w)).2).1 = inr aT ∧
    length dF = Pos.to_nat k ∧ length iF = Pos.to_nat k ∧
    length (ravel aT.1) = Pos.to_nat k ∧ length (ravel aT.2) = Pos.to_nat k ∧
    (∀ i row jF jT,
       rows X !! i = Some row →
       iF !! jF = Some (Z.of_nat i) → ravel aT.2 !! jT = Some (Z.of_nat i) →
       dF !! jF = Some (Num (sqdist q row)) ∧
       ravel aT.1 !! jT = Some (euclid (sqdist q row))) ∧
    (knn_ranking (rows X) q (flat_rank (rows X) q k) →
     knn_ranking (rows X) q (tree_rank (rows X) q k) →
     (∀ j, j < Pos.to_nat k → j < n_rows X →
        ∃ s, dF !! j = Some (Num s) ∧ ravel aT.1 !! j = Some (euclid s)) ∧
     (∀ i row i' row' j,
        rows X !! i = Some row → rows X !! i' = Some row' →
        (sqdist q row < sqdist q row')%Z →
        iF !! j = Some (Z.of_nat i') ∨ ravel aT.2 !! j = Some (Z.of_nat i') →
        Z.of_nat i ∈ iF ∧ Z.of_nat i ∈ ravel aT.2) ∧
     (∀ i row j,
        rows X !! i = Some row →
        (∀ i' row', rows X !! i' = Some row' →
                    sqdist q row' = sqdist q row → i' = i) →
        iF !! j = Some (Z.of_nat i) ↔ ravel aT.2 !! j = Some (Z.of_nat i))).
Proof.
  intros Hq _ batch. unfold n_rows.
  rewrite FastIndex_create_built, cKDTreeIndex_create_built. cbn [snd].
  unfold batch.
  rewrite (FastIndex_query_flat _ _ (n_features X) (rows X)) by reflexivity.
  destruct (cKDTreeIndex_query_one (cKDTreeIndex.mk (Some (new_cKDTree X)))
              (log_call call_cKDTree w) (new_cKDTree X) q k batch)
    as (a & Ha & Hd & Hi); [reflexivity | exact Hq | by right |].
  do 2 eexists. exists a. split; [reflexivity|]. split; [exact Ha|].
  rewrite Hd, Hi. cbn [new_cKDTree tree_data].
  set (rF := flat_rank (rows X) q k).
  set (rT := tree_rank (rows X) q k).
  assert (Hnth : ∀ i row, rows X !! i = Some row → nth i (rows X) [] = row).
  { intros i row Hrow. by apply nth_lookup_Some. }
  assert (HinF : ∀ i p, rF !! p = Some i → p < Pos.to_nat k →
            Z.of_nat i ∈ (flat_row (rows X) q k).2).
  { intros i p Hp Hpk. apply list_elem_of_lookup. exists p.
    by apply flat_row_found. }
  assert (HinT : ∀ i p, rT !! p = Some i → p < Pos.to_nat k →
            Z.of_nat i ∈ (tree_row (rows X) q k).2).
  { intros i p Hp Hpk. apply list_elem_of_lookup. exists p.
    by apply tree_row_found. }
  split; [apply padded_length|]. split; [apply padded_length|].
  split; [apply padded_length|]. split; [apply padded_length|].
  split.
  - intros i row jF jT Hrow HjF HjT.
    pose proof (lookup_lt_Some _ _ _ Hrow) as Hlt.
    apply flat_row_reports in HjF as [HkF HjF].
    apply tree_row_reports in HjT as [HkT HjT]; [|exact Hlt].
    rewrite <- (Hnth _ _ Hrow). split.
    + by apply flat_row_found.
    + by apply tree_row_found.
  - intros HF HT.
    pose proof (knn_ranking_length _ _ _ HF) as HlF.
    pose proof (knn_ranking_length _ _ _ HT) as HlT.
    split; [|split].
    + intros j Hjk Hjn.
      destruct (lookup_lt_is_Some_2 rF j) as [iF HiF]; [lia|].
      destruct (lookup_lt_is_Some_2 rT j) as [iT HiT]; [lia|].
      exists (sqdist q (nth iF (rows X) [])). split.
      * by apply flat_row_found.
      * rewrite (knn_ranking_same_distance _ _ _ _ _ _ _ HF HT HiF HiT).
        by apply tree_row_found.
    + intros i row i' row' j Hrow Hrow' Hlt Hrep.
      pose proof (lookup_lt_Some _ _ _ Hrow) as Hi_lt.
      pose proof (lookup_lt_Some _ _ _ Hrow') as Hi'_lt.
      rewrite <- (Hnth _ _ Hrow), <- (Hnth _ _ Hrow') in Hlt.
      destruct Hrep as [Hrep | Hrep].
      * apply flat_row_reports in Hrep as [Hjk Hj].
        destruct (knn_ranking_closer _ _ _ _ (Pos.to_nat k) _ _ _
                    HF HF Hj Hjk Hi_lt Hlt) as (p & Hp & Hpi).
        destruct (knn_ranking_closer _ _ _ _ (Pos.to_nat k) _ _ _
                    HF HT Hj Hjk Hi_lt Hlt) as (p' & Hp' & Hpi').
        split; [by eapply HinF | by eapply HinT].
      * apply tree_row_reports in Hrep as [Hjk Hj]; [|exact Hi'_lt].
        destruct (knn_ranking_closer _ _ _ _ (Pos.to_nat k) _ _ _
                    HT HF Hj Hjk Hi_lt Hlt) as (p & Hp & Hpi).
        destruct (knn_ranking_closer _ _ _ _ (Pos.to_nat k) _ _ _
                    HT HT Hj Hjk Hi_lt Hlt) as (p' & Hp' & Hpi').
        split; [by eapply HinF | by eapply HinT].
    + intros i row j Hrow Hunique.
      pose proof (lookup_lt_Some _ _ _ Hrow) as Hi_lt.
      split; intros Hrep.
      * apply flat_row_reports in Hrep as [Hjk Hj].
        pose proof (lookup_lt_Some _ _ _ Hj) as Hj_lt.
        destruct (knn_ranking_lookup _ _ _ j HT) as (i2 & row2 & Hi2 & Hrow2 & Hnth2).
        { unfold rF, rT in *. lia. }
        pose proof (knn_ranking_same_distance _ _ _ _ _ _ _ HF HT Hj Hi2) as Hsame.
        rewrite Hnth2, (Hnth _ _ Hrow) in Hsame.
        rewrite (Hunique i2 row2 Hrow2 (eq_sym Hsame)) in Hi2.
        by apply tree_row_found.
      * apply tree_row_reports in Hrep as [Hjk Hj]; [|exact Hi_lt].
        pose proof (lookup_lt_Some _ _ _ Hj) as Hj_lt.
        destruct (knn_ranking_lookup _ _ _ j HF) as (i2 & row2 & Hi2 & Hrow2 & Hnth2).
        { unfold rF, rT in *. lia. }
        pose proof (knn_ranking_same_distance _ _ _ _ _ _ _ HT HF Hj Hi2) as Hsame.
        rewrite Hnth2, (Hnth _ _ Hrow) in Hsame.
        rewrite (Hunique i2 row2 Hrow2 (eq_sym Hsame)) in Hi2.
        by apply flat_row_found.
Qed.

(** ** The two libraries meet the contract *)

#[local] Instance closer_total xb q : Total (closer xb q).
Proof. intros i j. unfold closer. lia. Qed.

Lemma lower_first_knn_ranking xb q k : knn_ranking xb q (lower_first xb q k).
Proof.
  split.
  - apply merge_sort_Permutation.
  - apply (Sorted_fmap _ (closer xb q)); [auto|].
    apply Sorted_merge_sort, _.
Qed.

Lemma higher_first_knn_ranking xb q k : knn_ranking xb q (higher_first xb q k).
Proof.
  unfold higher_first. split.
  - by rewrite reverse_Permutation, merge_sort_Permutation.
  - apply (Sorted_fmap _ (flip (flip (closer xb q)))); [auto|].
    apply Sorted_reverse, Sorted_merge_sort.
    intros i j. unfold flip, closer. lia.
Qed.

(** ** The statements at concrete inputs

    The library is [reference] unless said otherwise.  Where no two rows are
    at the same distance from the query, every library that meets the
    contract gives the same answers. *)

Section Examples.
#[local] Existing Instance reference.

(** C1 fails on the code: for the rows (0,0) and (3,4), the query (0,0) and
  k = 2, [FastIndex] reports the distances 0 and 25, [cKDTreeIndex] the
  distances 0 and 5, whether it is given the batch or the vector. *)
Lemma flat_and_tree_distances_differ :
let fast := (FastIndex.query origin 2
               (FastIndex.create two_points (FastIndex.__init__, no_files)).2).1 in
let tree x := (cKDTreeIndex.query x 2
                 (cKDTreeIndex.create two_points
                    (cKDTreeIndex.__init__, no_files)).2).1 in
fast = inr (Arr1 [Num 0; Num 25], Arr1 [0; 1]%Z) ∧
tree origin = inr (Arr2 [[Num 0; Num 5]], Arr2 [[0; 1]%Z]) ∧
tree (Vec1 [0; 0]%Z) = inr (Arr1 [Num 0; Num 5], Arr1 [0; 1]%Z) ∧
fast ≠ tree origin ∧ fast ≠ tree (Vec1 [0; 0]%Z).
Proof. vm_compute. repeat split; discriminate. Qed.

(** The amended statement at the same rows: coordinates within 4, and a
  library that meets the contract. *)
Lemma flat_distances_are_tree_distances_squared_witness :
let X := two_points in
let q := [0; 0]%Z in
length q = n_features X ∧
exact_floats (n_features X) (rows X) q ∧
knn_ranking (rows X) q (flat_rank (rows X) q 2) ∧
knn_ranking (rows X) q (tree_rank (rows X) q 2) ∧
∃ dF iF aT,
  (FastIndex.query origin 2
     (FastIndex.create X (FastIndex.__init__, no_files)).2).1
    = inr (Arr1 dF, Arr1 iF) ∧
  (cKDTreeIndex.query origin 2
     (cKDTreeIndex.create X (cKDTreeIndex.__init__, no_files)).2).1 = inr aT ∧
  length dF = Pos.to_nat 2 ∧ length iF = Pos.to_nat 2 ∧
  length (ravel aT.1) = Pos.to_nat 2 ∧ length (ravel aT.2) = Pos.to_nat 2 ∧
  (∀ i row jF jT,
     rows X !! i = Some row →
     iF !! jF = Some (Z.of_nat i) → ravel aT.2 !! jT = Some (Z.of_nat i) →
     dF !! jF = Some (Num (sqdist q row)) ∧
     ravel aT.1 !! jT = Some (euclid (sqdist q row))) ∧
  (∀ j, j < Pos.to_nat 2 → j < n_rows X →
     ∃ s, dF !! j = Some (Num s) ∧ ravel aT.1 !! j = Some (euclid s)) ∧
  (∀ i row i' row' j,
     rows X !! i = Some row → rows X !! i' = Some row' →
     (sqdist q row < sqdist q row')%Z →
     iF !! j = Some (Z.of_nat i') ∨ ravel aT.2 !! j = Some (Z.of_nat i') →
     Z.of_nat i ∈ iF ∧ Z.of_nat i ∈ ravel aT.2) ∧
  (∀ i row j,
     rows X !! i = Some row →
     (∀ i' row', rows X !! i' = Some row' →
                 sqdist q row' = sqdist q row → i' = i) →
     iF !! j = Some (Z.of_nat i) ↔ ravel aT.2 !! j = Some (Z.of_nat i)).
Proof.
intros X q.
assert (Hq : length q = n_features X) by reflexivity.
assert (Hexact : exact_floats (n_features X) (rows X) q).
{ exists 4%Z. split; [|vm_compute; reflexivity].
  repeat first [apply Forall_nil_2 | apply Forall_cons_2]; simpl; lia. }
assert (HrF : knn_ranking (rows X) q (flat_rank (rows X) q 2))
  by apply lower_first_knn_ranking.
assert (HrT : knn_ranking (rows X) q (tree_rank (rows X) q 2))
  by apply lower_first_knn_ranking.
split; [exact Hq|]. split; [exact Hexact|].
split; [exact HrF|]. split; [exact HrT|].
destruct (flat_distances_are_tree_distances_squared X q 2 no_files Hq Hexact)
  as (dF & iF & aT & HF & HT & HldF & HliF & HldT & HliT & Hrow & Hknn).
exists dF, iF, aT.
split; [exact HF|]. split; [exact HT|].
split; [exact HldF|]. split; [exact HliF|].
split; [exact HldT|]. split; [exact HliT|].
split; [exact Hrow|].
exact (Hknn HrF HrT).
Defined.

(** C7 fails on the code: one row stored and k = 2.  Neither exact backend
  raises and neither answers with the one row alone: both answer with two
  positions, the second filled, and not with the same filling. *)
Lemma query_beyond_N_neither_clamps_nor_raises :
let fast := (FastIndex.query origin 2
               (FastIndex.create one_point (FastIndex.__init__, no_files)).2).1 in
let tree := (cKDTreeIndex.query (Vec1 [0; 0]%Z) 2
               (cKDTreeIndex.create one_point
                  (cKDTreeIndex.__init__, no_files)).2).1 in
n_rows one_point = 1 ∧
fast = inr (Arr1 [Num 0; Num FLT_MAX], Arr1 [0; -1]%Z) ∧
tree = inr (Arr1 [Num 0; Inf], Arr1 [0; 1]%Z) ∧
fast ≠ tree.
Proof. vm_compute. repeat split; discriminate. Qed.

Lemma query_beyond_N_is_padded_witness :
length [0; 0]%Z = n_features one_point ∧
n_rows one_point < Pos.to_nat 2 ∧
length (flat_rank (rows one_point) [0; 0]%Z 2) ≤ n_rows one_point ∧
length (tree_rank (rows one_point) [0; 0]%Z 2) ≤ n_rows one_point ∧
(∃ dF iF,
   (FastIndex.query origin 2
      (FastIndex.create one_point (FastIndex.__init__, no_files)).2).1
     = inr (Arr1 dF, Arr1 iF) ∧
   length dF = Pos.to_nat 2 ∧ length iF = Pos.to_nat 2 ∧
   ∀ j, n_rows one_point ≤ j → j < Pos.to_nat 2 →
        dF !! j = Some (Num FLT_MAX) ∧ iF !! j = Some (-1)%Z) ∧
(∃ aT,
   (cKDTreeIndex.query origin 2
      (cKDTreeIndex.create one_point (cKDTreeIndex.__init__, no_files)).2).1
     = inr aT ∧
   length (ravel aT.1) = Pos.to_nat 2 ∧ length (ravel aT.2) = Pos.to_nat 2 ∧
   ∀ j, n_rows one_point ≤ j → j < Pos.to_nat 2 →
        ravel aT.1 !! j = Some Inf ∧
        ravel aT.2 !! j = Some (Z.of_nat (n_rows one_point))) ∧
(∀ st,
   MemoryEfficientIndex.create one_point (MemoryEfficientIndex.__init__, no_files)
     = (inr tt, st) →
   ∃ dQ iQ,
     (MemoryEfficientIndex.query origin 2 st).1 = inr (Arr1 dQ, Arr1 iQ) ∧
     length dQ = Pos.to_nat 2 ∧ length iQ = Pos.to_nat 2).
Proof.
assert (Hn : n_rows one_point < Pos.to_nat 2) by (vm_compute; lia).
assert (HF : length (flat_rank (rows one_point) [0; 0]%Z 2) ≤ n_rows one_point)
  by (vm_compute; lia).
assert (HT : length (tree_rank (rows one_point) [0; 0]%Z 2) ≤ n_rows one_point)
  by (vm_compute; lia).
split; [reflexivity|].
split; [exact Hn|].
split; [exact HF|].
split; [exact HT|].
exact (query_beyond_N_is_padded one_point [0; 0]%Z 2 no_files eq_refl Hn HF HT).
Defined.

(** C9 fails on the code: a batch of the two queries (0,0) and (10,10) on
  the six points, k = 3.  The answer is that to (0,0) alone, three entries;
  the neighbours of (10,10), the rows 3, 4 and 5, are not in it. *)
Lemma batch_of_two_gets_one_answer :
let built := (FastIndex.create six_points (FastIndex.__init__, no_files)).2 in
let ask qs := (FastIndex.query (Batch (mk_ndarray 2 qs)) 3 built).1 in
ask [[0; 0]; [10; 10]]%Z = inr (Arr1 [Num 0; Num 1; Num 1], Arr1 [0; 1; 2]%Z) ∧
ask [[0; 0]]%Z = inr (Arr1 [Num 0; Num 1; Num 1], Arr1 [0; 1; 2]%Z) ∧
ask [[10; 10]]%Z = inr (Arr1 [Num 0; Num 1; Num 1], Arr1 [3; 4; 5]%Z).
Proof. vm_compute. repeat split. Qed.

(** The amended statement at the same batch: what [FastIndex.query] returns
  is row 0 of the answer of faiss, the three results found for (0,0), each
  distance with its label. *)
Lemma batch_query_answers_first_vector_witness :
let built := (FastIndex.create six_points (FastIndex.__init__, no_files)).2 in
let batch := Batch (mk_ndarray 2 [[0; 0]; [10; 10]]%Z) in
∃ i d0 i0 dt it,
  FastIndex.index built.1 = Some i ∧
  faiss_search i batch 3 = inr (d0 :: dt, i0 :: it) ∧
  (FastIndex.query batch 3 built).1 = inr (Arr1 d0, Arr1 i0) ∧
  hits_exact i [0; 0]%Z ∧
  zip d0 i0 = padded 3 (faiss_hits i [0; 0]%Z 3) (Num FLT_MAX, (-1)%Z) ∧
  zip d0 i0 = [(Num 0, 0); (Num 1, 1); (Num 1, 2)]%Z.
Proof.
intros built batch.
assert (Hrun : (FastIndex.query batch 3 built).1
               = inr (Arr1 [Num 0; Num 1; Num 1], Arr1 [0; 1; 2]%Z))
  by (vm_compute; reflexivity).
destruct (batch_query_answers_first_vector 2 [0; 0]%Z [[10; 10]%Z] 3 built.2)
  as (_ & Hfast & _).
destruct (Hfast built.1 _ Hrun)
  as (i & d0 & i0 & dt & it & Hi & Hsearch & Ha & _ & _ & Hzip).
injection Ha as <- <-.
assert (Hexact : hits_exact i [0; 0]%Z).
{ cbn in Hi. injection Hi as <-. exists 11%Z. split; [|vm_compute; reflexivity].
  repeat first [apply Forall_nil_2 | apply Forall_cons_2]; simpl; lia. }
exists i, [Num 0; Num 1; Num 1], [0; 1; 2]%Z, dt, it.
split; [exact Hi|]. split; [exact Hsearch|]. split; [exact Hrun|].
split; [exact Hexact|]. split; [exact (Hzip Hexact)|]. reflexivity.
Defined.

(** C2 and C3 at a concrete input: the six points, saved and read back. *)
Lemma FastIndex_load_returns_None_witness :
let built := (FastIndex.create six_points (FastIndex.__init__, no_files)).2 in
FastIndex.index built.1 = Some (Flat (mk_flat 2 (rows six_points))) ∧
(FastIndex.load "index.faiss"
   (FastIndex.serialize "index.faiss" built).2.2).1 = inr None.
Proof.
split; [reflexivity|].
apply (FastIndex_load_returns_None _ (Flat (mk_flat 2 (rows six_points)))).
reflexivity.
Defined.

Lemma FastIndex_restore_query_raises_witness :
let built := (FastIndex.create six_points (FastIndex.__init__, no_files)).2 in
FastIndex.index built.1 = Some (Flat (mk_flat 2 (rows six_points))) ∧
(FastIndex.query origin 3 (FastIndex.serialize "index.faiss" built).2).1
= inr (Arr1 [Num 0; Num 1; Num 1], Arr1 [0; 1; 2]%Z) ∧
(FastIndex_restore_query "index.faiss" origin 3
   (FastIndex.serialize "index.faiss" built).2.2).1
= inl (AttributeError "'NoneType' object has no attribute 'query'").
Proof.
split; [reflexivity|].
split; [vm_compute; reflexivity|].
apply (FastIndex_restore_query_raises _ (Flat (mk_flat 2 (rows six_points)))).
reflexivity.
Defined.

(** The six points of the specification, the query (0,0), k = 3.  The rows 1
  and 2 are both at distance 1.  With a library that ranks the lower row
  first the indices are 0, 1, 2; with one that ranks the higher row first
  they are 0, 2, 1.  Both libraries meet the contract. *)
Lemma six_points_lower_first :
(FastIndex.query origin 3
   (FastIndex.create six_points (FastIndex.__init__, no_files)).2).1
= inr (Arr1 [Num 0; Num 1; Num 1], Arr1 [0; 1; 2]%Z) ∧
(cKDTreeIndex.query (Vec1 [0; 0]%Z) 3
   (cKDTreeIndex.create six_points (cKDTreeIndex.__init__, no_files)).2).1
= inr (Arr1 [Num 0; Num 1; Num 1], Arr1 [0; 1; 2]%Z).
Proof. vm_compute. split; reflexivity. Qed.

Lemma six_points_higher_first :
(FastIndex.query (L := reference') origin 3
   (FastIndex.create six_points (FastIndex.__init__, no_files)).2).1
= inr (Arr1 [Num 0; Num 1; Num 1], Arr1 [0; 2; 1]%Z) ∧
(cKDTreeIndex.query (L := reference') (Vec1 [0; 0]%Z) 3
   (cKDTreeIndex.create six_points (cKDTreeIndex.__init__, no_files)).2).1
= inr (Arr1 [Num 0; Num 1; Num 1], Arr1 [0; 2; 1]%Z).
Proof. vm_compute. split; reflexivity. Qed.

End Examples.

(** Whatever the library, as long as it meets the contract: on the six points
    both backends report the distances 0, 1, 1, and the rows 0, 1, 2 with row
    0 first.  The order of the rows 1 and 2 is the library's. *)
Lemma six_points_up_to_tie_order `{L : Library} (w : world) :
  knn_ranking (rows six_points) [0; 0]%Z (flat_rank (rows six_points) [0; 0]%Z 3) →
  knn_ranking (rows six_points) [0; 0]%Z (tree_rank (rows six_points) [0; 0]%Z 3) →
  ∃ iF iT,
    (FastIndex.query origin 3
       (FastIndex.create six_points (FastIndex.__init__, w)).2).1
      = inr (Arr1 [Num 0; Num 1; Num 1], Arr1 iF) ∧
    (cKDTreeIndex.query (Vec1 [0; 0]%Z) 3
       (cKDTreeIndex.create six_points (cKDTreeIndex.__init__, w)).2).1
      = inr (Arr1 [Num 0; Num 1; Num 1], Arr1 iT) ∧
    (iF = [0; 1; 2]%Z ∨ iF = [0; 2; 1]%Z) ∧
    (iT = [0; 1; 2]%Z ∨ iT = [0; 2; 1]%Z).
Proof.
  assert (Hrank : ∀ r, knn_ranking (rows six_points) [0; 0]%Z r →
            ∃ d e f, r = [0; 1; 2; d; e; f] ∨ r = [0; 2; 1; d; e; f]).
  { intros r Hr.
    pose proof (knn_ranking_distances _ _ _ _ Hr
                  (lower_first_knn_ranking (rows six_points) [0; 0]%Z 3)) as Hd.
    assert (Hnd : NoDup r).
    { destruct Hr as [Hp _]. rewrite Hp. apply NoDup_seq. }
    assert (Hlt : ∀ x, x ∈ r → x < 6).
    { intros x Hx. destruct Hr as [Hp _]. rewrite Hp in Hx.
      apply elem_of_seq in Hx. simpl in Hx. lia. }
    destruct r as [|a [|b [|c [|d [|e [|f [|g r]]]]]]]; try discriminate Hd.
    exists d, e, f.
    injection Hd as Ha Hb Hc _ _ _.
    assert (Hla : a < 6) by (apply Hlt; set_solver).
    assert (Hlb : b < 6) by (apply Hlt; set_solver).
    assert (Hlc : c < 6) by (apply Hlt; set_solver).
    assert (a = 0) as ->.
    { do 6 (destruct a as [|a]; [reflexivity || discriminate Ha|]). lia. }
    assert (b = 1 ∨ b = 2) as Hb'.
    { do 6 (destruct b as [|b]; [auto || discriminate Hb|]). lia. }
    assert (c = 1 ∨ c = 2) as Hc'.
    { do 6 (destruct c as [|c]; [auto || discriminate Hc|]). lia. }
    apply NoDup_cons in Hnd as [_ Hnd]. apply NoDup_cons in Hnd as [Hbc _].
    rewrite elem_of_cons in Hbc.
    destruct Hb' as [-> | ->], Hc' as [-> | ->]; auto; exfalso; auto. }
  intros HF HT.
  destruct (Hrank _ HF) as (d & e & f & HrF).
  destruct (Hrank _ HT) as (d' & e' & f' & HrT).
  rewrite FastIndex_create_built, cKDTreeIndex_create_built.
  unfold origin. cbn [snd].
  rewrite (FastIndex_query_flat _ _ 2 (rows six_points)) by reflexivity.
  rewrite (cKDTreeIndex_query_vec _ _ (new_cKDTree six_points)) by reflexivity.
  unfold flat_row, tree_row. cbn [tree_data new_cKDTree].
  destruct HrF as [-> | ->], HrT as [-> | ->]; do 2 eexists;
    (split; [reflexivity|]); (split; [reflexivity|]); auto.
Qed.


(** * Further properties of the classes *)

(** ** [create] *)

Lemma picks_divides d m : picks d m → 0 < m ∧ d mod m = 0.
Proof. intros [[-> ?] | [[-> [? ?]] | [-> (? & ? & ?)]]]; split; (lia || assumption). Qed.

Lemma create_picks `{L : Library} X m s :
  picks (n_features X) m →
  MemoryEfficientIndex.create X s = create_with X m s.
Proof.
  intros Hp. rewrite create_unfold. cbv zeta.
  destruct Hp as [[-> ?] | [[-> [? ?]] | [-> (? & ? & ?)]]].
  - by rewrite bool_decide_eq_true_2.
  - rewrite bool_decide_eq_false_2 by assumption. by rewrite bool_decide_eq_true_2.
  - rewrite !bool_decide_eq_false_2 by assumption. by rewrite bool_decide_eq_true_2.
Qed.

Lemma picks_or_none d :
  (∃ m, picks d m) ∨ (d mod 4 ≠ 0 ∧ d mod 5 ≠ 0 ∧ d mod 2 ≠ 0).
Proof.
  unfold picks.
  destruct (decide (d mod 4 = 0)); [left; exists 4; tauto|].
  destruct (decide (d mod 5 = 0)); [left; exists 5; tauto|].
  destruct (decide (d mod 2 = 0)); [left; exists 2; tauto|].
  right. tauto.
Qed.

Lemma create_raises_no_good_m `{L : Library} X self w :
  n_features X mod 4 ≠ 0 → n_features X mod 5 ≠ 0 → n_features X mod 2 ≠ 0 →
  MemoryEfficientIndex.create X (self, w) = (inl no_good_m, (self, w)).
Proof.
  intros H4 H5 H2. rewrite create_unfold. cbv zeta.
  by rewrite !bool_decide_eq_false_2.
Qed.

(** What [create] does once [m] is chosen, by the answer of the training. *)
Lemma create_with_run `{L : Library} X m self w :
  0 < m → n_features X mod m = 0 →
  let d := n_features X in
  let w2 := log_call call_train
              (log_call (call_IndexIVFPQ d 100 m 8)
                 (log_call (call_IndexFlatL2 d) w)) in
  create_with X m (self, w) =
    match ivfpq_train d 100 m 8 (rows X) with
    | Some cb =>
        (inr tt,
         (MemoryEfficientIndex.mk
            (Some (IVFPQ (mk_ivfpq d 100 m 8 (Some cb) (rows X)))),
          log_call call_add w2))
    | None =>
        (inl RuntimeError,
         (MemoryEfficientIndex.mk
            (Some (IVFPQ (mk_ivfpq d 100 m 8 None []))),
          w2))
    end.
Proof.
  intros Hm Hd. cbv zeta.
  unfold create_with. run.
  rewrite (new_IndexIVFPQ_divides _ _ _ _ _ Hm Hd). run.
  unfold faiss_train, faiss_add. simpl.
  rewrite bool_decide_eq_true_2 by reflexivity.
  destruct (ivfpq_train _ _ _ _ _) as [cb|]; run; [|reflexivity].
  by rewrite bool_decide_eq_true_2.
Qed.

(** X1.  [create] of the two exact backends never fails and starts afresh:
    whatever the object held, it then holds an index of the rows of [X] and
    of nothing else, and no file is touched.  So a second [create] does not
    add to the rows of the first. *)
Theorem exact_create_replaces_index `{L : Library}
    (X0 X : ndarray) (w : world) :
  (∀ self,
     (FastIndex.create X (self, w)).1 = inr tt ∧
     FastIndex.index (FastIndex.create X (self, w)).2.1
       = Some (Flat (mk_flat (n_features X) (rows X))) ∧
     files (FastIndex.create X (self, w)).2.2 = files w ∧
     (FastIndex.create X (FastIndex.create X0 (self, w)).2).2.1
       = (FastIndex.create X (self, w)).2.1) ∧
  (∀ self,
     (cKDTreeIndex.create X (self, w)).1 = inr tt ∧
     cKDTreeIndex.index (cKDTreeIndex.create X (self, w)).2.1
       = Some (mk_tree (n_features X) (rows X)) ∧
     files (cKDTreeIndex.create X (self, w)).2.2 = files w ∧
     (cKDTreeIndex.create X (cKDTreeIndex.create X0 (self, w)).2).2.1
       = (cKDTreeIndex.create X (self, w)).2.1).
Proof.
  split; intros self.
  - rewrite (FastIndex_create_built X0). cbn [snd].
    rewrite !FastIndex_create_built. repeat split.
  - rewrite (cKDTreeIndex_create_built X0). cbn [snd].
    rewrite !cKDTreeIndex_create_built. repeat split.
Qed.

(** X2.  [MemoryEfficientIndex.create] ends in one of three ways: it
    returns, it raises its own [ValueError], or it raises the
    [RuntimeError] of faiss.  With [m] the factor its chain picks, it returns
    exactly when faiss accepts the training set: the constructor of the
    quantizer never refuses the [m] that was picked. *)
Theorem quantized_create_outcomes `{L : Library}
    (X : ndarray) (self : MemoryEfficientIndex.t) (w : world) :
  let r := (MemoryEfficientIndex.create X (self, w)).1 in
  (r = inr tt ∨ r = inl no_good_m ∨ r = inl RuntimeError) ∧
  (∀ m, picks (n_features X) m →
        (r = inr tt ↔ is_Some (ivfpq_train (n_features X) 100 m 8 (rows X)))).
Proof.
  cbv zeta. split.
  - destruct (picks_or_none (n_features X)) as [[m Hp] | (H4 & H5 & H2)].
    + rewrite (create_picks _ _ _ Hp).
      destruct (picks_divides _ _ Hp) as [Hm Hd].
      rewrite (create_with_run _ _ _ _ Hm Hd).
      destruct (ivfpq_train _ _ _ _ _); auto.
    + right. left. by rewrite create_raises_no_good_m.
  - intros m Hp. rewrite (create_picks _ _ _ Hp).
    destruct (picks_divides _ _ Hp) as [Hm Hd].
    rewrite (create_with_run _ _ _ _ Hm Hd).
    destruct (ivfpq_train _ _ _ _ _) as [cb|]; simpl.
    + split; eauto.
    + split; [discriminate | by intros [? ?]].
Qed.

(** X3.  After a [MemoryEfficientIndex.create] that returned, the object
    holds a trained product quantizer of the dimension of [X], with 100
    lists, 8 bits, the picked number [m] of sub-quantizers, which divides the
    dimension, and exactly the rows of [X]; no file was touched. *)
Theorem quantized_create_built `{L : Library}
    (X : ndarray) (self : MemoryEfficientIndex.t) (w : world)
    (st : MemoryEfficientIndex.t * world) :
  MemoryEfficientIndex.create X (self, w) = (inr tt, st) →
  ∃ m cb,
    picks (n_features X) m ∧ n_features X mod m = 0 ∧
    ivfpq_train (n_features X) 100 m 8 (rows X) = Some cb ∧
    MemoryEfficientIndex.index st.1
      = Some (IVFPQ (mk_ivfpq (n_features X) 100 m 8 (Some cb) (rows X))) ∧
    files st.2 = files w.
Proof.
  destruct (picks_or_none (n_features X)) as [[m Hp] | (H4 & H5 & H2)].
  - rewrite (create_picks _ _ _ Hp).
    destruct (picks_divides _ _ Hp) as [Hm Hd].
    rewrite (create_with_run _ _ _ _ Hm Hd).
    destruct (ivfpq_train _ _ _ _ _) as [cb|] eqn:Ht; [|discriminate].
    intros [= <-]. exists m, cb. repeat split; assumption.
  - rewrite (create_raises_no_good_m _ _ _ H4 H5 H2). discriminate.
Qed.

(** X4.  When faiss refuses the training set, [MemoryEfficientIndex.create]
    raises after it has assigned [self.index]: the object is left with the
    new product quantizer, which is not trained and holds no rows, and the
    index it held before is gone.  No file was touched. *)
Theorem quantized_create_failed_training `{L : Library}
    (X : ndarray) (self : MemoryEfficientIndex.t) (w : world) (m : nat) :
  picks (n_features X) m →
  ivfpq_train (n_features X) 100 m 8 (rows X) = None →
  (MemoryEfficientIndex.create X (self, w)).1 = inl RuntimeError ∧
  MemoryEfficientIndex.index (MemoryEfficientIndex.create X (self, w)).2.1
    = Some (IVFPQ (mk_ivfpq (n_features X) 100 m 8 None [])) ∧
  files (MemoryEfficientIndex.create X (self, w)).2.2 = files w.
Proof.
  intros Hp Ht. rewrite (create_picks _ _ _ Hp).
  destruct (picks_divides _ _ Hp) as [Hm Hd].
  rewrite (create_with_run _ _ _ _ Hm Hd), Ht. repeat split.
Qed.

(** ** [query] *)

(** X5.  No [query] changes the object it is called on or any file,
    whether it returns or raises. *)
Theorem query_changes_nothing `{L : Library}
    (q : query_array) (k : positive) (w : world) :
  (∀ self, (FastIndex.query q k (self, w)).2.1 = self ∧
           files (FastIndex.query q k (self, w)).2.2 = files w) ∧
  (∀ self, (MemoryEfficientIndex.query q k (self, w)).2.1 = self ∧
           files (MemoryEfficientIndex.query q k (self, w)).2.2 = files w) ∧
  (∀ self, (cKDTreeIndex.query q k (self, w)).2.1 = self ∧
           files (cKDTreeIndex.query q k (self, w)).2.2 = files w).
Proof.
  split; [|split]; intros [[i|]]; try (split; reflexivity).
  - unfold FastIndex.query. run.
    destruct (faiss_search i q k) as [e|[ds ix]]; run; [by split|].
    destruct (subscript0 ds); run; [by split|].
    destruct (subscript0 ix); by split.
  - unfold MemoryEfficientIndex.query. run.
    destruct (faiss_search i q k) as [e|[ds ix]]; run; [by split|].
    destruct (subscript0 ds); run; [by split|].
    destruct (subscript0 ix); by split.
  - unfold cKDTreeIndex.query. run.
    destruct (cKDTree_query i q k) as [e|[ds ix]]; by split.
Qed.

(** X6.  On a batch without vectors, a built [FastIndex] raises
    [IndexError]: faiss answers with arrays of no rows, and the wrapper takes
    row 0 of them.  A built [cKDTreeIndex] returns the arrays of no rows. *)
Theorem query_empty_batch `{L : Library}
    (X : ndarray) (k : positive) (w : world) :
  let none := Batch (mk_ndarray (n_features X) []) in
  (FastIndex.query none k
     (FastIndex.create X (FastIndex.__init__, w)).2).1 = inl IndexError ∧
  ∃ a, (cKDTreeIndex.query none k
          (cKDTreeIndex.create X (cKDTreeIndex.__init__, w)).2).1 = inr a ∧
       ravel a.1 = [] ∧ ravel a.2 = [].
Proof.
  cbv zeta. rewrite FastIndex_create_built, cKDTreeIndex_create_built.
  cbn [snd]. split.
  - unfold FastIndex.query, faiss_search. run.
    by rewrite bool_decide_eq_true_2.
  - unfold cKDTreeIndex.query, cKDTree_query. run.
    rewrite bool_decide_eq_true_2 by reflexivity. run.
    eexists. split; [reflexivity|].
    unfold squeeze_rows. by case_bool_decide.
Qed.

(** X7.  Given a batch, a built [cKDTreeIndex] answers every vector of
    it: the answer holds k distances and k indices for each of the Q
    vectors, unlike that of the two faiss wrappers. *)
Theorem tree_query_answers_whole_batch `{L : Library}
    (X : ndarray) (qs : list vec) (k : positive) (w : world) :
  ∃ a, (cKDTreeIndex.query (Batch (mk_ndarray (n_features X) qs)) k
          (cKDTreeIndex.create X (cKDTreeIndex.__init__, w)).2).1 = inr a ∧
       ravel a.1 = concat ((fun q => (tree_row (rows X) q k).1) <$> qs) ∧
       ravel a.2 = concat ((fun q => (tree_row (rows X) q k).2) <$> qs) ∧
       length (ravel a.1) = length qs * Pos.to_nat k ∧
       length (ravel a.2) = length qs * Pos.to_nat k.
Proof.
  rewrite cKDTreeIndex_create_built. cbn [snd].
  unfold cKDTreeIndex.query, cKDTree_query. run.
  rewrite bool_decide_eq_true_2 by reflexivity. run.
  eexists. split; [reflexivity|].
  assert (Hlen : ∀ (A : Type) (f : vec → list A),
            (∀ q, length (f q) = Pos.to_nat k) →
            length (concat (f <$> qs)) = length qs * Pos.to_nat k).
  { intros A f Hf. induction qs as [|q qs IH]; [reflexivity|].
    rewrite fmap_cons. cbn [concat]. rewrite length_app, Hf, IH. reflexivity. }
  assert (Hravel : ∀ (A : Type) (ll : list (list A)),
            ravel (squeeze_rows k ll) = concat ll).
  { intros A ll. unfold squeeze_rows. by case_bool_decide. }
  cbn [fst snd]. rewrite !Hravel, <- !list_fmap_compose.
  repeat split; apply Hlen; intros q; apply padded_length.
Qed.

(** ** [serialize] and [load] *)

(** X8.  [serialize] leaves the object as it was and writes to no path but
    its own: every other file is what it was, on every backend and whether
    the call returns or raises. *)
Theorem serialize_touches_one_file `{L : Library}
    (path other : string) (w : world) :
  other ≠ path →
  (∀ self, (FastIndex.serialize path (self, w)).2.1 = self ∧
           files (FastIndex.serialize path (self, w)).2.2 !! other
             = files w !! other) ∧
  (∀ self, (MemoryEfficientIndex.serialize path (self, w)).2.1 = self ∧
           files (MemoryEfficientIndex.serialize path (self, w)).2.2 !! other
             = files w !! other) ∧
  (∀ self, (cKDTreeIndex.serialize path (self, w)).2.1 = self ∧
           files (cKDTreeIndex.serialize path (self, w)).2.2 !! other
             = files w !! other).
Proof.
  intros Hne. split; [|split]; intros [[i|]].
  all: unfold FastIndex.serialize, MemoryEfficientIndex.serialize,
         cKDTreeIndex.serialize, faiss_write_index, pickle_dump; run.
  all: split; [reflexivity|]; try reflexivity.
  all: by apply lookup_insert_ne.
Qed.

(** X9.  No [load] changes a file. *)
Theorem load_changes_no_file `{L : Library} (path : string) (w : world) :
  files (FastIndex.load path w).2 = files w ∧
  files (MemoryEfficientIndex.load path w).2 = files w ∧
  files (cKDTreeIndex.load path w).2 = files w.
Proof.
  unfold FastIndex.load, MemoryEfficientIndex.load, cKDTreeIndex.load,
    faiss_read_index, pickle_load. run.
  destruct (files w !! path) as [[i|o]|]; repeat split.
Qed.

(** X10.  [MemoryEfficientIndex.load] gives back the object that
    [MemoryEfficientIndex.serialize] saved: when [serialize] of an object that
    holds an index has returned, whatever file was at the path before,
    loading the path returns an instance equal to the saved one, and the
    object itself is as it was. *)
Theorem quantized_load_after_serialize `{L : Library}
    (self : MemoryEfficientIndex.t) (i : faiss_index) (path : string)
    (w : world) (st : MemoryEfficientIndex.t * world) :
  MemoryEfficientIndex.index self = Some i →
  MemoryEfficientIndex.serialize path (self, w) = (inr tt, st) →
  st.1 = self ∧
  (MemoryEfficientIndex.load path st.2).1 = inr (Some self).
Proof.
  intros Hi. destruct self as [o]. simpl in Hi. subst o.
  unfold MemoryEfficientIndex.load, MemoryEfficientIndex.serialize,
    faiss_write_index, faiss_read_index.
  run. intros [= <-]. simpl. by rewrite lookup_insert_eq.
Qed.

(** X11.  [cKDTreeIndex.load] gives back the object that
    [cKDTreeIndex.serialize] saved: when [serialize] has returned, with or
    without an index in the object, loading the path returns an instance
    equal to the saved one.  So the restored copy of an object that was never
    built is not built either: a query on it raises. *)
Theorem tree_load_after_serialize `{L : Library}
    (self : cKDTreeIndex.t) (path : string) (w : world)
    (st : cKDTreeIndex.t * world) :
  cKDTreeIndex.serialize path (self, w) = (inr tt, st) →
  st.1 = self ∧
  (cKDTreeIndex.load path st.2).1 = inr (Some self) ∧
  (cKDTreeIndex.index self = None →
   ∀ q k, (cKDTreeIndex_restore_query path q k st.2).1
          = inl (AttributeError "'NoneType' object has no attribute 'query'")).
Proof.
  destruct self as [o].
  unfold cKDTreeIndex_restore_query, cKDTreeIndex.load, cKDTreeIndex.serialize,
    cKDTreeIndex.query, pickle_dump, pickle_load.
  run. intros [= <-]. run. rewrite lookup_insert_eq. run.
  repeat split. intros ->. reflexivity.
Qed.

(** X12.  A file written by [FastIndex.serialize] can be read by
    [MemoryEfficientIndex.load]: the instance it returns answers every query
    as the saved [FastIndex] does. *)
Theorem quantized_load_restores_flat_file `{L : Library}
    (self : FastIndex.t) (i : faiss_index) (path : string) (w : world)
    (q : query_array) (k : positive) :
  FastIndex.index self = Some i →
  (MemoryEfficientIndex.load path
     (FastIndex.serialize path (self, w)).2.2).1
    = inr (Some (MemoryEfficientIndex.mk (Some i))) ∧
  (MemoryEfficientIndex_restore_query path q k
     (FastIndex.serialize path (self, w)).2.2).1
    = (FastIndex.query q k (self, w)).1.
Proof.
  intros Hi. rewrite (serialize_files _ _ _ _ Hi). cbn [snd].
  destruct self as [o]. simpl in Hi. subst o.
  unfold MemoryEfficientIndex_restore_query, MemoryEfficientIndex.load,
    MemoryEfficientIndex.query, FastIndex.query, faiss_read_index.
  run. rewrite lookup_insert_eq. run. split; [reflexivity|].
  destruct (faiss_search i q k) as [e|[ds ix]]; run; [reflexivity|].
  destruct (subscript0 ds); run; [reflexivity|].
  destruct (subscript0 ix); reflexivity.
Qed.

(** X13.  [load] on a path without file raises and returns nothing:
    [RuntimeError] from faiss in [FastIndex] and [MemoryEfficientIndex],
    [FileNotFoundError] from [open] in [cKDTreeIndex]. *)
Theorem load_missing_file `{L : Library} (path : string) (w : world) :
  files w !! path = None →
  (FastIndex.load path w).1 = inl RuntimeError ∧
  (MemoryEfficientIndex.load path w).1 = inl RuntimeError ∧
  cKDTreeIndex.load path w = (inl FileNotFoundError, w).
Proof.
  intros Hnone.
  unfold FastIndex.load, MemoryEfficientIndex.load, cKDTreeIndex.load,
    faiss_read_index, pickle_load. run.
  rewrite Hnone. repeat split.
Qed.

(** ** The answers of the exact backends *)

Lemma sqdist_nonneg x y : (0 ≤ sqdist x y)%Z.
Proof.
  revert y. induction x as [|a x IH]; intros [|b y]; simpl; try lia.
  specialize (IH y). pose proof (Z.square_nonneg (a - b)). lia.
Qed.

Lemma sqdist_diag x : sqdist x x = 0%Z.
Proof. induction x as [|a x IH]; simpl; [reflexivity|]. rewrite IH. lia. Qed.

Lemma euclid_0 : euclid 0 = Num 0.
Proof. reflexivity. Qed.

(** X14.  The two sequences of an answer of an exact backend belong
    together.  Where the arithmetic of the libraries is exact
    ([exact_floats]) and they rank as the contract says ([knn_ranking]): at
    every position below k and the number of rows, the index is that of a
    stored row and the distance is the distance from the query to this row,
    squared in [FastIndex], Euclidean in [cKDTreeIndex]. *)
Theorem exact_answers_pair_up `{L : Library}
    (X : ndarray) (q : vec) (k : positive) (w : world) :
  length q = n_features X →
  exact_floats (n_features X) (rows X) q →
  knn_ranking (rows X) q (flat_rank (rows X) q k) →
  knn_ranking (rows X) q (tree_rank (rows X) q k) →
  let batch := Batch (mk_ndarray (n_features X) [q]) in
  ∃ dF iF aT,
    (FastIndex.query batch k
       (FastIndex.create X (FastIndex.__init__, w)).2).1
      = inr (Arr1 dF, Arr1 iF) ∧
    (cKDTreeIndex.query (Vec1 q) k
       (cKDTreeIndex.create X (cKDTreeIndex.__init__, w)).2).1 = inr aT ∧
    ∀ j, j < Pos.to_nat k → j < n_rows X →
      (∃ i row, iF !! j = Some (Z.of_nat i) ∧ rows X !! i = Some row ∧
                dF !! j = Some (Num (sqdist q row))) ∧
      (∃ i row, ravel aT.2 !! j = Some (Z.of_nat i) ∧ rows X !! i = Some row ∧
                ravel aT.1 !! j = Some (euclid (sqdist q row))).
Proof.
  intros Hq _ HF HT batch. unfold n_rows.
  pose proof (knn_ranking_length _ _ _ HF) as HlF.
  pose proof (knn_ranking_length _ _ _ HT) as HlT.
  rewrite FastIndex_create_built, cKDTreeIndex_create_built. cbn [snd].
  unfold batch.
  rewrite (FastIndex_query_flat _ _ (n_features X) (rows X)) by reflexivity.
  rewrite (cKDTreeIndex_query_vec _ _ (new_cKDTree X)) by (reflexivity || exact Hq).
  do 3 eexists. split; [reflexivity|]. split; [reflexivity|].
  intros j Hjk Hjn. cbn [fst snd]. rewrite !ravel_squeeze.
  unfold flat_row, tree_row. cbn [fst snd new_cKDTree tree_data].
  rewrite !padded_lookup_found by (rewrite ?length_fmap; lia).
  rewrite !list_lookup_fmap.
  destruct (knn_ranking_lookup _ _ _ j HF Hjn) as (i & row & -> & Hrow & Hnth).
  destruct (knn_ranking_lookup _ _ _ j HT Hjn) as (i' & row' & -> & Hrow' & Hnth').
  simpl. rewrite Hnth, Hnth'. split; eauto.
Qed.

(** X16.  When the query vector is one of the stored rows, both exact
    backends report the distance 0 at the first position. *)
Theorem exact_query_of_stored_row `{L : Library}
    (X : ndarray) (q : vec) (k : positive) (w : world) :
  q ∈ rows X →
  length q = n_features X →
  knn_ranking (rows X) q (flat_rank (rows X) q k) →
  knn_ranking (rows X) q (tree_rank (rows X) q k) →
  let batch := Batch (mk_ndarray (n_features X) [q]) in
  ∃ dF iF aT,
    (FastIndex.query batch k
       (FastIndex.create X (FastIndex.__init__, w)).2).1
      = inr (Arr1 dF, Arr1 iF) ∧
    (cKDTreeIndex.query (Vec1 q) k
       (cKDTreeIndex.create X (cKDTreeIndex.__init__, w)).2).1 = inr aT ∧
    dF !! 0 = Some (Num 0) ∧ ravel aT.1 !! 0 = Some (Num 0).
Proof.
  intros Hin Hq HF HT batch.
  assert (Hfirst : ∀ r, knn_ranking (rows X) q r →
            ((fun i => sqdist q (nth i (rows X) [])) <$> r) !! 0 = Some 0%Z).
  { intros r Hr.
    apply list_elem_of_lookup in Hin as [p Hp].
    pose proof (lookup_lt_Some _ _ _ Hp) as Hlt.
    destruct (knn_ranking_lookup _ _ _ 0 Hr ltac:(lia)) as (i & row & Hi & Hrow & Hnth).
    assert (Hpr : p ∈ r).
    { destruct Hr as [Hperm _]. rewrite Hperm. apply elem_of_seq. lia. }
    apply list_elem_of_lookup in Hpr as [j Hj].
    destruct Hr as [_ Hsorted].
    assert (Hle : (sqdist q row ≤ sqdist q q)%Z).
    { eapply (sorted_lookup_le _ 0 j); [exact Hsorted | lia | |].
      - rewrite list_lookup_fmap, Hi. simpl. by rewrite Hnth.
      - rewrite list_lookup_fmap, Hj. simpl.
        by rewrite (nth_lookup_Some _ _ _ _ Hp). }
    rewrite sqdist_diag in Hle. pose proof (sqdist_nonneg q row).
    rewrite list_lookup_fmap, Hi. simpl. rewrite Hnth. f_equal. lia. }
  assert (Hrows : 0 < length (rows X)).
  { apply list_elem_of_lookup in Hin as [p Hp].
    apply lookup_lt_Some in Hp. lia. }
  pose proof (knn_ranking_length _ _ _ HF) as HlF.
  pose proof (knn_ranking_length _ _ _ HT) as HlT.
  rewrite FastIndex_create_built, cKDTreeIndex_create_built. cbn [snd].
  unfold batch.
  rewrite (FastIndex_query_flat _ _ (n_features X) (rows X)) by reflexivity.
  rewrite (cKDTreeIndex_query_vec _ _ (new_cKDTree X)) by (reflexivity || exact Hq).
  do 3 eexists. split; [reflexivity|]. split; [reflexivity|].
  cbn [fst snd]. rewrite !ravel_squeeze.
  unfold flat_row, tree_row. cbn [fst snd new_cKDTree tree_data].
  rewrite !padded_lookup_found by (rewrite ?length_fmap; lia).
  pose proof (Hfirst _ HF) as H0F. pose proof (Hfirst _ HT) as H0T.
  rewrite list_lookup_fmap in H0F, H0T. rewrite !list_lookup_fmap.
  destruct (flat_rank (rows X) q k !! 0) as [iF|]; [|discriminate].
  destruct (tree_rank (rows X) q k !! 0) as [iT|]; [|discriminate].
  simpl in *. injection H0F as ->. injection H0T as ->. by rewrite euclid_0.
Qed.

(** ** The further properties at concrete inputs *)

Section MoreExamples.
#[local] Existing Instance reference.

Lemma quantized_create_built_witness :
  let X := mk_ndarray 2 (replicate 256 [0; 0]%Z) in
  let run := MemoryEfficientIndex.create X (MemoryEfficientIndex.__init__, no_files) in
  run = (inr tt, run.2) ∧
  ∃ m cb,
    picks (n_features X) m ∧ n_features X mod m = 0 ∧
    ivfpq_train (n_features X) 100 m 8 (rows X) = Some cb ∧
    MemoryEfficientIndex.index run.2.1
      = Some (IVFPQ (mk_ivfpq (n_features X) 100 m 8 (Some cb) (rows X))) ∧
    files run.2.2 = files no_files.
Proof.
  intros X run.
  assert (Hrun : run = (inr tt, run.2)) by (vm_compute; reflexivity).
  split; [exact Hrun|].
  exact (quantized_create_built X MemoryEfficientIndex.__init__ no_files run.2 Hrun).
Defined.

(** 150 rows: enough for the 100 lists, too few for the 256 centroids of
    the product quantizer. *)
Lemma quantized_create_failed_training_witness :
  let X := mk_ndarray 2 (replicate 150 [0; 0]%Z) in
  let run := MemoryEfficientIndex.create X (MemoryEfficientIndex.__init__, no_files) in
  picks (n_features X) 2 ∧
  ivfpq_train (n_features X) 100 2 8 (rows X) = None ∧
  run.1 = inl RuntimeError ∧
  MemoryEfficientIndex.index run.2.1
    = Some (IVFPQ (mk_ivfpq (n_features X) 100 2 8 None [])) ∧
  files run.2.2 = files no_files.
Proof.
  intros X run.
  assert (Hp : picks (n_features X) 2).
  { right. right. vm_compute. repeat split; lia. }
  assert (Ht : ivfpq_train (n_features X) 100 2 8 (rows X) = None)
    by (vm_compute; reflexivity).
  split; [exact Hp|]. split; [exact Ht|].
  exact (quantized_create_failed_training X
           MemoryEfficientIndex.__init__ no_files 2 Hp Ht).
Defined.

Lemma serialize_touches_one_file_witness :
  "other.faiss" ≠ "index.faiss" ∧
  files (FastIndex.serialize "index.faiss"
           (FastIndex.create six_points (FastIndex.__init__, no_files)).2).2.2
    !! "other.faiss" = None.
Proof.
  assert (Hne : "other.faiss" ≠ "index.faiss") by discriminate.
  split; [exact Hne|].
  destruct (serialize_touches_one_file "index.faiss" "other.faiss"
              (FastIndex.create six_points (FastIndex.__init__, no_files)).2.2 Hne)
    as [Hfast _].
  destruct (Hfast (FastIndex.create six_points (FastIndex.__init__, no_files)).2.1)
    as [_ Hother].
  exact Hother.
Defined.

Lemma quantized_load_after_serialize_witness :
  let self := MemoryEfficientIndex.mk (Some (Flat (mk_flat 2 (rows six_points)))) in
  let saved := MemoryEfficientIndex.serialize "index.faiss" (self, no_files) in
  MemoryEfficientIndex.index self = Some (Flat (mk_flat 2 (rows six_points))) ∧
  saved = (inr tt, saved.2) ∧
  saved.2.1 = self ∧
  (MemoryEfficientIndex.load "index.faiss" saved.2.2).1 = inr (Some self).
Proof.
  intros self saved.
  assert (Hsaved : saved = (inr tt, saved.2)) by reflexivity.
  split; [reflexivity|]. split; [exact Hsaved|].
  exact (quantized_load_after_serialize self _ "index.faiss" no_files saved.2
           eq_refl Hsaved).
Defined.

Lemma tree_load_after_serialize_witness :
  let self := cKDTreeIndex.__init__ in
  let saved := cKDTreeIndex.serialize "tree.pickle" (self, no_files) in
  saved = (inr tt, saved.2) ∧
  saved.2.1 = self ∧
  (cKDTreeIndex.load "tree.pickle" saved.2.2).1 = inr (Some self) ∧
  (cKDTreeIndex.index self = None →
   ∀ q k, (cKDTreeIndex_restore_query "tree.pickle" q k saved.2.2).1
          = inl (AttributeError "'NoneType' object has no attribute 'query'")).
Proof.
  intros self saved.
  assert (Hsaved : saved = (inr tt, saved.2)) by reflexivity.
  split; [exact Hsaved|].
  exact (tree_load_after_serialize self "tree.pickle" no_files saved.2 Hsaved).
Defined.

Lemma quantized_load_restores_flat_file_witness :
  let built := (FastIndex.create six_points (FastIndex.__init__, no_files)).2 in
  FastIndex.index built.1 = Some (Flat (mk_flat 2 (rows six_points))) ∧
  (MemoryEfficientIndex_restore_query "index.faiss" origin 3
     (FastIndex.serialize "index.faiss" built).2.2).1
  = (FastIndex.query origin 3 built).1.
Proof.
  intros built. split; [reflexivity|].
  exact (proj2 (quantized_load_restores_flat_file built.1 _ "index.faiss"
                  built.2 origin 3 eq_refl)).
Defined.

Lemma load_missing_file_witness :
  files no_files !! "index.faiss" = None ∧
  cKDTreeIndex.load "index.faiss" no_files = (inl FileNotFoundError, no_files) ∧
  (FastIndex.load "index.faiss" no_files).1 = inl RuntimeError.
Proof.
  assert (Hnone : files no_files !! "index.faiss" = None) by reflexivity.
  split; [exact Hnone|].
  destruct (load_missing_file "index.faiss" no_files Hnone) as (Hf & _ & Ht).
  split; [exact Ht | exact Hf].
Defined.

Lemma exact_answers_pair_up_witness :
  length [0; 0]%Z = n_features six_points ∧
  exact_floats (n_features six_points) (rows six_points) [0; 0]%Z ∧
  knn_ranking (rows six_points) [0; 0]%Z (flat_rank (rows six_points) [0; 0]%Z 3) ∧
  knn_ranking (rows six_points) [0; 0]%Z (tree_rank (rows six_points) [0; 0]%Z 3) ∧
  ∃ dF iF aT,
    (FastIndex.query origin 3
       (FastIndex.create six_points (FastIndex.__init__, no_files)).2).1
      = inr (Arr1 dF, Arr1 iF) ∧
    (cKDTreeIndex.query (Vec1 [0; 0]%Z) 3
       (cKDTreeIndex.create six_points (cKDTreeIndex.__init__, no_files)).2).1
      = inr aT ∧
    ∀ j, j < Pos.to_nat 3 → j < n_rows six_points →
      (∃ i row, iF !! j = Some (Z.of_nat i) ∧ rows six_points !! i = Some row ∧
                dF !! j = Some (Num (sqdist [0; 0]%Z row))) ∧
      (∃ i row, ravel aT.2 !! j = Some (Z.of_nat i) ∧
                rows six_points !! i = Some row ∧
                ravel aT.1 !! j = Some (euclid (sqdist [0; 0]%Z row))).
Proof.
  assert (Hexact : exact_floats (n_features six_points) (rows six_points) [0; 0]%Z).
  { exists 11%Z. split; [|vm_compute; reflexivity].
    repeat first [apply Forall_nil_2 | apply Forall_cons_2]; simpl; lia. }
  split; [reflexivity|].
  split; [exact Hexact|].
  split; [apply lower_first_knn_ranking|].
  split; [apply lower_first_knn_ranking|].
  apply (exact_answers_pair_up six_points [0; 0]%Z 3 no_files).
  - reflexivity.
  - exact Hexact.
  - apply lower_first_knn_ranking.
  - apply lower_first_knn_ranking.
Defined.

Lemma exact_query_of_stored_row_witness :
  [10; 10]%Z ∈ rows six_points ∧
  length [10; 10]%Z = n_features six_points ∧
  knn_ranking (rows six_points) [10; 10]%Z (flat_rank (rows six_points) [10; 10]%Z 2) ∧
  knn_ranking (rows six_points) [10; 10]%Z (tree_rank (rows six_points) [10; 10]%Z 2) ∧
  ∃ dF iF aT,
    (FastIndex.query (Batch (mk_ndarray 2 [[10; 10]%Z])) 2
       (FastIndex.create six_points (FastIndex.__init__, no_files)).2).1
      = inr (Arr1 dF, Arr1 iF) ∧
    (cKDTreeIndex.query (Vec1 [10; 10]%Z) 2
       (cKDTreeIndex.create six_points (cKDTreeIndex.__init__, no_files)).2).1
      = inr aT ∧
    dF !! 0 = Some (Num 0) ∧ ravel aT.1 !! 0 = Some (Num 0).
Proof.
  assert (Hin : [10; 10]%Z ∈ rows six_points).
  { apply list_elem_of_lookup. by exists 3. }
  split; [exact Hin|].
  split; [reflexivity|].
  split; [apply lower_first_knn_ranking|].
  split; [apply lower_first_knn_ranking|].
  apply (exact_query_of_stored_row six_points [10; 10]%Z 2 no_files).
  - exact Hin.
  - reflexivity.
  - apply lower_first_knn_ranking.
  - apply lower_first_knn_ranking.
Defined.

End MoreExamples.
